(** * Procurement-rule extraction scripts: a shallow embedding

    The repository holds two Python scripts, [parse_rules.py] and
    [parse_rules_complete.py].  Both read a markdown catalogue of numbered
    rules, scan it line by line and write a TypeScript module.  This file
    embeds the string primitives the scripts call, the two scanners, the
    grouping pass of the second script and the two emitters, and then states
    and proves the properties of the specification against them.

    Characters are code points below 256, held as [ascii]; a Python [str] is a
    list of them.  Python integers are unbounded, so rule numbers are [N]. *)

From Stdlib Require Import Ascii String NArith Arith Bool Lia List.
Import ListNotations.
Local Open Scope list_scope.

(** ** Python values *)

Definition str := list ascii.

(** A literal of the source text. *)
Definition lit (s : string) : str := list_ascii_of_string s.

Definition nl : ascii := "010"%char.
Definition dq : ascii := "034"%char.
Definition sq : ascii := "039"%char.
Definition bs : ascii := "092"%char.

(** What a run of the script ends in: a value, an uncaught exception, or
    (an artefact of the model only) a loop cut off by its iteration budget. *)
Inductive exn := ValueError | TypeError.

Inductive outcome (A : Type) :=
| Done (a : A)
| Raised (e : exn)
| OutOfFuel.
Arguments Done {A} a.
Arguments Raised {A} e.
Arguments OutOfFuel {A}.

Definition bind {A B} (m : outcome A) (k : A -> outcome B) : outcome B :=
  match m with
  | Done a => k a
  | Raised e => Raised e
  | OutOfFuel => OutOfFuel
  end.

Notation "x <- m ;; k" := (bind m (fun x => k))
  (at level 61, m at next level, right associativity).

(** ** The built-ins of [str] the scripts use *)

Module Py.

(** [str.isspace] on one character, for code points below 256. *)
Definition isspace (c : ascii) : bool :=
  let n := nat_of_ascii c in
  ((9 <=? n) && (n <=? 13)) || ((28 <=? n) && (n <=? 32))
  || (n =? 133) || (n =? 160).

(** The decimal digits, which is what the pattern class for digits accepts
    below code point 256. *)
Definition isdigit (c : ascii) : bool :=
  let n := nat_of_ascii c in (48 <=? n) && (n <=? 57).

Fixpoint lstrip (s : str) : str :=
  match s with
  | c :: s' => if isspace c then lstrip s' else s
  | [] => []
  end.

Definition rstrip (s : str) : str := rev (lstrip (rev s)).

(** [s.strip()] *)
Definition strip (s : str) : str := rstrip (lstrip s).

(** [s.startswith(p)] *)
Fixpoint startswith (s p : str) {struct p} : bool :=
  match p, s with
  | [], _ => true
  | a :: p', b :: s' => Ascii.eqb a b && startswith s' p'
  | _ :: _, [] => false
  end.

(** [s.endswith(p)] *)
Definition endswith (s p : str) : bool := startswith (rev s) (rev p).

(** [p in s] *)
Fixpoint contains (s p : str) : bool :=
  startswith s p ||
  match s with
  | [] => false
  | _ :: s' => contains s' p
  end.

(** [s.replace(old, new)]: the occurrences of [old] are found from the left
    and do not overlap.  [skip] counts the characters of an occurrence still
    to be passed over.  Every call in the scripts has a non-empty [old]. *)
Fixpoint replace_from (skip : nat) (s old new : str) : str :=
  match s with
  | [] => []
  | c :: s' =>
      match skip with
      | S k => replace_from k s' old new
      | O =>
          if startswith s old
          then new ++ replace_from (length old - 1) s' old new
          else c :: replace_from 0 s' old new
      end
  end.

Definition replace (s old new : str) : str := replace_from 0 s old new.

(** [s.split(sep)] for a one-character separator: never an empty list. *)
Fixpoint split (s : str) (sep : ascii) : list str :=
  match s with
  | [] => [[]]
  | c :: s' =>
      if Ascii.eqb c sep then [] :: split s' sep
      else match split s' sep with
           | l :: ls => (c :: l) :: ls
           | [] => [[c]]
           end
  end.

(** [sep.join(xs)] *)
Fixpoint join (sep : str) (xs : list str) : str :=
  match xs with
  | [] => []
  | x :: xs' =>
      match xs' with
      | [] => x
      | _ :: _ => x ++ sep ++ join sep xs'
      end
  end.

(** [s[1:]] *)
Definition from1 (s : str) : str := tl s.

(** Truth value of a string and of a list: non-empty. *)
Definition nonempty {A} (l : list A) : bool :=
  match l with [] => false | _ :: _ => true end.

(** Truth value of a name bound to [None] or to a string. *)
Definition truthy (o : option str) : bool :=
  match o with None => false | Some s => nonempty s end.

Definition digit_value (c : ascii) : N := N_of_ascii c - 48.

(** [int(s)] on a string of decimal digits; anything else is a
    [ValueError].  (The interpreter's cap on the number of digits of a
    conversion is a run-time setting and is not modelled.) *)
Definition int (s : str) : outcome N :=
  if nonempty s && forallb isdigit s
  then Done (fold_left (fun acc c => 10 * acc + digit_value c)%N s 0%N)
  else Raised ValueError.

(** [str(n)] for a non-negative integer: its decimal digits, most
    significant first.  [fuel] bounds the number of digits. *)
Fixpoint digits_acc (fuel : nat) (n : N) (acc : str) : str :=
  match fuel with
  | O => acc
  | S f =>
      let acc' := ascii_of_N (48 + n mod 10) :: acc in
      if (n / 10 =? 0)%N then acc' else digits_acc f (n / 10)%N acc'
  end.

Definition str_of_int (n : N) : str :=
  digits_acc (S (N.to_nat (N.log2 n))) n [].

End Py.

(** ** The two regular expressions

    A pattern is matched the way a backtracking engine does it: a repetition
    takes as many characters as it can and gives them back one at a time while
    the rest of the pattern fails. *)

Module Re.

(** One or more characters of class [p], then the continuation [k], which
    receives the characters taken and the text left. *)
Fixpoint plus {A} (p : ascii -> bool) (k : str -> str -> option A)
    (taken s : str) : option A :=
  match s with
  | c :: s' =>
      if p c then
        match plus p k (taken ++ [c]) s' with
        | Some r => Some r
        | None => k (taken ++ [c]) s'
        end
      else None
  | [] => None
  end.

(** A literal text, then the continuation on what follows it. *)
Definition text {A} (t : str) (k : str -> option A) (s : str) : option A :=
  if Py.startswith s t then k (skipn (length t) s) else None.

(** The dot: any character but a newline. *)
Definition dot (c : ascii) : bool := negb (Ascii.eqb c nl).

(** The dollar: the end of the text, or just before a newline that ends it. *)
Definition at_end (s : str) : bool :=
  match s with
  | [] => true
  | [c] => Ascii.eqb c nl
  | _ => false
  end.

(** Two asterisks, digits, a dot: the test that guards the rule branch of
    [parse_rules.py]. *)
Definition rule_start (line : str) : bool :=
  match text (lit "**")
          (plus Py.isdigit
             (fun _ s => if Py.startswith s (lit ".") then Some tt else None) [])
          line with
  | Some _ => true
  | None => false
  end.

(** Two asterisks, digits (group 1), a dot, white space, one or more
    characters (group 2), two asterisks, the end. *)
Definition rule_header (line : str) : option (str * str) :=
  text (lit "**")
    (plus Py.isdigit
       (fun g1 =>
          text (lit ".")
            (plus Py.isspace
               (fun _ =>
                  plus dot
                    (fun g2 =>
                       text (lit "**")
                         (fun s => if at_end s then Some (g1, g2) else None))
                    [])
               []))
       [])
    line.

End Re.

(** ** The data model: the dictionaries the scripts build *)

Record ProcurementRule := {
  number : N;
  title : str;
  description : str;
  source : str
}.

(** The priority of a section is whatever [current_priority] is bound to when
    the section is appended: [None] or a string. *)
Record ProcurementSection := {
  sec_title : str;
  sec_priority : option str;
  sec_rules : list ProcurementRule
}.

Definition Document := list ProcurementSection.

(** The numbers of the rules of a document, in order. *)
Definition rule_numbers (doc : Document) : list N :=
  flat_map (fun s => map number (sec_rules s)) doc.

(** ** [parse_rules.py]: the scanner driven by the headers *)

Module ParseRules.

Record state := {
  sections : list ProcurementSection;
  current_section : option str;
  current_priority : option str;
  rules : list ProcurementRule;
  i : nat
}.

Definition init : state :=
  {| sections := []; current_section := None; current_priority := None;
     rules := []; i := 0 |}.

(** The four headers of the priority tiers, tried in this order. *)
Definition tier_headers : list (str * str) :=
  [ (lit "## **CRITICAL MANDATORY REQUIREMENTS**", lit "critical");
    (lit "## **HIGH PRIORITY REQUIREMENTS**", lit "high");
    (lit "## **IMPORTANT OPERATIONAL REQUIREMENTS**", lit "important");
    (lit "## **DOCUMENT PRIORITIZATION METHODOLOGY**", lit "info") ].

(** The tier a line sets, if it starts with one of the four headers. *)
Definition tier (line : str) : option str :=
  if Py.startswith line (lit "## **CRITICAL MANDATORY REQUIREMENTS**")
  then Some (lit "critical")
  else if Py.startswith line (lit "## **HIGH PRIORITY REQUIREMENTS**")
  then Some (lit "high")
  else if Py.startswith line (lit "## **IMPORTANT OPERATIONAL REQUIREMENTS**")
  then Some (lit "important")
  else if Py.startswith line (lit "## **DOCUMENT PRIORITIZATION METHODOLOGY**")
  then Some (lit "info")
  else None.

Definition is_section_header (line : str) : bool :=
  Py.startswith line (lit "### **") && Py.endswith line (lit "**").

(** The title a section header gives: the opening text and every pair of
    asterisks taken out. *)
Definition section_name (line : str) : str :=
  Py.replace (Py.replace line (lit "### **") []) (lit "**") [].

(** The test of the inner loop on [lines[i]]. *)
Definition is_description (l : str) : bool :=
  Py.startswith (Py.strip l) (lit "-")
  && negb (Py.startswith (Py.strip l) (lit "- **Source")).

(** [lines[i].strip()[1:].strip()] *)
Definition fragment (l : str) : str := Py.strip (Py.from1 (Py.strip l)).

(** One turn of the inner loop on the description built so far. *)
Definition add_fragment (description : str) (l : str) : str :=
  (if Py.nonempty description then description ++ lit " " else description)
  ++ fragment l.

(** The inner loop: [rest] is [lines[i:]], so its head is [lines[i]] and it
    is empty exactly when [i < len(lines)] fails. *)
Fixpoint description_loop (rest : list str) (i : nat) (description : str)
  : nat * str :=
  match rest with
  | l :: rest' =>
      if is_description l
      then description_loop rest' (S i) (add_fragment description l)
      else (i, description)
  | [] => (i, description)
  end.

(** The source of a rule, read at the line the inner loop stopped on. *)
Definition source_at (lines : list str) (i : nat) : str :=
  match nth_error lines i with
  | Some l =>
      if Py.contains l (lit "- **Source**:")
      then Py.strip (Py.replace (Py.strip l) (lit "- **Source**:") [])
      else []
  | None => []
  end.

(** [sections.append(...)] of the open section, then [rules = []]. *)
Definition flush (st : state) : state :=
  match current_section st with
  | Some t =>
      if Py.nonempty t && Py.nonempty (rules st)
      then {| sections := sections st ++
                [ {| sec_title := t; sec_priority := current_priority st;
                     sec_rules := rules st |} ];
              current_section := current_section st;
              current_priority := current_priority st;
              rules := [];
              i := i st |}
      else st
  | None => st
  end.

Definition set_priority (p : str) (st : state) : state :=
  {| sections := sections st; current_section := current_section st;
     current_priority := Some p; rules := rules st; i := i st |}.

Definition set_section (t : str) (st : state) : state :=
  {| sections := sections st; current_section := Some t;
     current_priority := current_priority st; rules := rules st; i := i st |}.

Definition append_rule (r : ProcurementRule) (j : nat) (st : state) : state :=
  {| sections := sections st; current_section := current_section st;
     current_priority := current_priority st; rules := rules st ++ [r];
     i := j |}.

(** The [i += 1] that ends every turn of the main loop. *)
Definition advance (st : state) : state :=
  {| sections := sections st; current_section := current_section st;
     current_priority := current_priority st; rules := rules st;
     i := S (i st) |}.

(** The rule branch once the full pattern has matched with groups [g1] and
    [g2]. *)
Definition read_rule (lines : list str) (g1 g2 : str) (st : state)
  : outcome state :=
  rule_num <- Py.int g1 ;;
  let rule_title := g2 in
  let '(j, description) :=
    description_loop (skipn (S (i st)) lines) (S (i st)) [] in
  let source := source_at lines j in
  Done (append_rule
          {| number := rule_num; title := rule_title;
             description := description; source := source |} j st).

(** The body of the main loop on [l = lines[i]]. *)
Definition body (lines : list str) (l : str) (st : state) : outcome state :=
  let line := Py.strip l in
  match tier line with
  | Some p => Done (advance (set_priority p st))
  | None =>
      if is_section_header line then
        Done (advance (set_section (section_name line) (flush st)))
      else if Re.rule_start line then
        match Re.rule_header line with
        | Some (g1, g2) => st' <- read_rule lines g1 g2 st ;; Done (advance st')
        | None => Done (advance st)
        end
      else Done (advance st)
  end.

(** The main loop, [fuel] turns at most. *)
Fixpoint loop (fuel : nat) (lines : list str) (st : state) {struct fuel}
  : outcome state :=
  match nth_error lines (i st) with
  | None => Done st
  | Some l =>
      match fuel with
      | O => OutOfFuel
      | S fuel' => st' <- body lines l st ;; loop fuel' lines st'
      end
  end.

(** After the loop: the last section is added. *)
Definition finish (st : state) : Document := sections (flush st).

(** The scan of one line, as a partial step: no step past the last line. *)
Definition step (lines : list str) (st : state) : option (outcome state) :=
  match nth_error lines (i st) with
  | Some l => Some (body lines l st)
  | None => None
  end.

(** From the text of the file to the list [sections]. *)
Definition extract (content : str) : outcome Document :=
  let lines := Py.split content nl in
  st <- loop (length lines) lines init ;;
  Done (finish st).

End ParseRules.

Definition example_input : str :=
  lit "**3. Mandatory Review Threshold**
- All contracts above $X require review
- **Source**: PR2025, Section 4, p.12".

Definition example_rule : ProcurementRule :=
  {| number := 3;
     title := lit "Mandatory Review Threshold";
     description := lit "All contracts above $X require review";
     source := lit "PR2025, Section 4, p.12" |}.

(** ** [parse_rules_complete.py]: rules first, sections by rule number *)

Module Complete.

Record state := {
  rules : list ProcurementRule;
  i : nat
}.

Definition init : state := {| rules := []; i := 0 |}.

(** The test of the inner loop on [lines[i]]. *)
Definition is_description (l : str) : bool :=
  Py.startswith (Py.strip l) (lit "-")
  && negb (Py.contains l (lit "**Source**")).

Definition fragment (l : str) : str := Py.strip (Py.from1 (Py.strip l)).

(** The inner loop over [rest = lines[i:]], collecting [description_lines]. *)
Fixpoint description_loop (rest : list str) (i : nat)
    (description_lines : list str) : nat * list str :=
  match rest with
  | l :: rest' =>
      if is_description l
      then description_loop rest' (S i) (description_lines ++ [fragment l])
      else (i, description_lines)
  | [] => (i, description_lines)
  end.

(** The source line: read, and stepped over, only when it holds the marker. *)
Definition source_at (lines : list str) (i : nat) : str * nat :=
  match nth_error lines i with
  | Some l =>
      if Py.contains l (lit "**Source**:")
      then (Py.strip (Py.replace (Py.strip l) (lit "- **Source**:") []), S i)
      else ([], i)
  | None => ([], i)
  end.

Definition read_rule (lines : list str) (g1 g2 : str) (st : state)
  : outcome state :=
  rule_num <- Py.int g1 ;;
  let rule_title := g2 in
  let '(j, description_lines) :=
    description_loop (skipn (S (i st)) lines) (S (i st)) [] in
  let description := Py.join (lit " ") description_lines in
  let '(source, j') := source_at lines j in
  Done {| rules := rules st ++
            [ {| number := rule_num; title := rule_title;
                 description := description; source := source |} ];
          i := j' |}.

(** The body of the first loop on [l = lines[i]]. *)
Definition body (lines : list str) (l : str) (st : state) : outcome state :=
  let line := Py.strip l in
  match Re.rule_header line with
  | Some (g1, g2) => read_rule lines g1 g2 st
  | None => Done {| rules := rules st; i := S (i st) |}
  end.

Fixpoint loop (fuel : nat) (lines : list str) (st : state) {struct fuel}
  : outcome state :=
  match nth_error lines (i st) with
  | None => Done st
  | Some l =>
      match fuel with
      | O => OutOfFuel
      | S fuel' => st' <- body lines l st ;; loop fuel' lines st'
      end
  end.

(** The scan of one line, as a partial step: no step past the last line. *)
Definition step (lines : list str) (st : state) : option (outcome state) :=
  match nth_error lines (i st) with
  | Some l => Some (body lines l st)
  | None => None
  end.

(** The rule numbers after which a section is closed. *)
Definition boundaries : list N :=
  [3; 11; 23; 29; 37; 46; 55; 67; 78; 84; 100; 108; 114; 120; 128; 134; 141;
   145; 152; 159; 164; 181; 190]%N.

(** The title of the section that starts after rule [n]. *)
Definition next_title (n : N) : option str :=
  if (n =? 3)%N then Some (lit "Strategic Planning Documents")
  else if (n =? 11)%N then Some (lit "Fraud, Corruption & Integrity")
  else if (n =? 23)%N then Some (lit "Conflict of Interest")
  else if (n =? 29)%N then Some (lit "Eligibility & Participation")
  else if (n =? 37)%N then Some (lit "Prior Review Requirements")
  else if (n =? 46)%N then Some (lit "Selection Methods & Processes")
  else if (n =? 55)%N then Some (lit "Bid/Proposal Requirements")
  else if (n =? 67)%N then Some (lit "Evaluation Procedures")
  else if (n =? 78)%N then Some (lit "Contract Award & Management")
  else if (n =? 84)%N then Some (lit "Complaints Handling")
  else if (n =? 100)%N then Some (lit "Procurement Planning")
  else if (n =? 108)%N then Some (lit "Market Engagement")
  else if (n =? 114)%N then Some (lit "Sustainability Requirements")
  else if (n =? 120)%N then Some (lit "Alternative Procurement")
  else if (n =? 128)%N then Some (lit "Consultant Selection")
  else if (n =? 134)%N then Some (lit "Quality Considerations")
  else if (n =? 141)%N then Some (lit "Small Contracts")
  else if (n =? 145)%N then Some (lit "Direct Contracting")
  else if (n =? 152)%N then Some (lit "Framework Agreements")
  else if (n =? 159)%N then Some (lit "E-Procurement Systems")
  else if (n =? 164)%N then Some (lit "Transparency & Disclosure")
  else if (n =? 181)%N then Some (lit "Documentation & Records")
  else if (n =? 190)%N then Some (lit "Additional Process Requirements")
  else None.

Definition priority_of (n : N) : str :=
  if (n <=? 46)%N then lit "critical"
  else if (n <=? 100)%N then lit "high"
  else lit "important".

(** The state of the grouping pass.  [current_section] is [None] or a
    dictionary of which only the title is ever read; it is held as the
    title. *)
Record grouping := {
  sections : list ProcurementSection;
  current_section : option str;
  section_rules : list ProcurementRule
}.

Definition grouping_init : grouping :=
  {| sections := []; current_section := None; section_rules := [] |}.

(** [current_section["title"]]: a [TypeError] on [None]. *)
Definition title_of (current_section : option str) : outcome str :=
  match current_section with
  | Some t => Done t
  | None => Raised TypeError
  end.

(** One turn of [for rule in rules]. *)
Definition group_step (g : grouping) (rule : ProcurementRule)
  : outcome grouping :=
  let current_section :=
    match current_section g with
    | None => Some (lit "Core Principles & Legal Framework")
    | Some t => Some t
    end in
  let section_rules := section_rules g ++ [rule] in
  if existsb (N.eqb (number rule)) boundaries then
    t <- title_of current_section ;;
    Done {| sections := sections g ++
              [ {| sec_title := t;
                   sec_priority := Some (priority_of (number rule));
                   sec_rules := section_rules |} ];
            current_section :=
              match next_title (number rule) with
              | Some t' => Some t'
              | None => current_section
              end;
            section_rules := [] |}
  else
    Done {| sections := sections g; current_section := current_section;
            section_rules := section_rules |}.

Fixpoint group_loop (rules : list ProcurementRule) (g : grouping)
  : outcome grouping :=
  match rules with
  | [] => Done g
  | rule :: rules' => g' <- group_step g rule ;; group_loop rules' g'
  end.

(** After the loop: the rules left over make one more section. *)
Definition group_finish (g : grouping) : outcome Document :=
  if Py.nonempty (section_rules g) then
    t <- title_of (current_section g) ;;
    Done (sections g ++
            [ {| sec_title := t; sec_priority := Some (lit "important");
                 sec_rules := section_rules g |} ])
  else Done (sections g).

Definition group (rules : list ProcurementRule) : outcome Document :=
  g <- group_loop rules grouping_init ;; group_finish g.

(** From the text of the file to the list [sections]. *)
Definition extract (content : str) : outcome Document :=
  let lines := Py.split content nl in
  st <- loop (length lines) lines init ;;
  group (rules st).

(** The three lists whose lengths the script prints after the scan. *)
Definition critical_rules (rules : list ProcurementRule)
  : list ProcurementRule :=
  filter (fun r => (1 <=? number r)%N && (number r <=? 46)%N) rules.

Definition high_rules (rules : list ProcurementRule)
  : list ProcurementRule :=
  filter (fun r => (47 <=? number r)%N && (number r <=? 100)%N) rules.

Definition important_rules (rules : list ProcurementRule)
  : list ProcurementRule :=
  filter (fun r => (101 <=? number r)%N && (number r <=? 190)%N) rules.

End Complete.

(** ** The emitters *)

Module Emit.

Local Open Scope string_scope.
Local Open Scope list_scope.

(** A line of a template: its pieces, a double quote between two of them,
    and the newline that ends it. *)
Definition tline (pieces : list string) : str :=
  Py.join [dq] (map lit pieces) ++ [nl].

Definition template (ls : list (list string)) : str := flat_map tline ls.

(** The escaping of a text field: first the double quotes, then the single
    ones, each gets a backslash in front. *)
Definition escape (s : str) : str :=
  Py.replace (Py.replace s [dq] [bs; dq]) [sq] [bs; sq].

(** A value placed in an f-string: a string as it is, [None] by its name. *)
Definition format_opt (o : option str) : str :=
  match o with
  | Some s => s
  | None => lit "None"
  end.

Definition rule_text (rule : ProcurementRule) : str :=
  let title_escaped := escape (title rule) in
  let desc_escaped := escape (description rule) in
  let source_escaped := escape (source rule) in
  lit "            {" ++ [nl]
  ++ lit "                number: " ++ Py.str_of_int (number rule) ++ lit "," ++ [nl]
  ++ lit "                title: " ++ [dq] ++ title_escaped ++ [dq] ++ lit "," ++ [nl]
  ++ lit "                description: " ++ [dq] ++ desc_escaped ++ [dq] ++ lit "," ++ [nl]
  ++ lit "                source: " ++ [dq] ++ source_escaped ++ [dq] ++ [nl]
  ++ lit "            }," ++ [nl].

Definition section_text (section : ProcurementSection) : str :=
  lit "    {" ++ [nl]
  ++ lit "        title: " ++ [dq] ++ sec_title section ++ [dq] ++ lit "," ++ [nl]
  ++ lit "        priority: " ++ [dq] ++ format_opt (sec_priority section) ++ [dq] ++ lit "," ++ [nl]
  ++ lit "        rules: [" ++ [nl]
  ++ flat_map rule_text (sec_rules section)
  ++ lit "        ]" ++ [nl]
  ++ lit "    }," ++ [nl].



(** The head of the module [parse_rules_complete.py] writes. *)
Definition header_complete : str := template [
    ["// Procurement Rules Content - ALL 190 Rules"];
    ["// Generated from procurement_rules_comprehensive.md"];
    [""];
    ["export interface ProcurementRule {"];
    ["    number: number;"];
    ["    title: string;"];
    ["    description: string;"];
    ["    source: string;"];
    ["}"];
    [""];
    ["export interface ProcurementSection {"];
    ["    title: string;"];
    ["    priority: 'critical' | 'high' | 'important' | 'info';"];
    ["    rules: ProcurementRule[];"];
    ["    isInfoSection?: boolean;"];
    ["    content?: string;"];
    ["}"];
    [""];
    ["export const procurementRulesContent: ProcurementSection[] = ["] ].

(** The two info sections and the end of the array, written as they stand. *)
Definition info_sections : str := template [
    ["    {"];
    ["        title: "; "Document Prioritization Methodology"; ","];
    ["        priority: "; "info"; ","];
    ["        isInfoSection: true,"];
    ["        content: `**CRITICAL MANDATORY REQUIREMENTS (Rules 1-46)**"];
    [""];
    ["Legal/regulatory requirements from Legal Agreement and Procurement Regulations"];
    [""];
    ["**Violation results in:** misprocurement declaration, contract cancellation, loan suspension/cancellation, financing withdrawal, reputational damage to Borrower and Bank"];
    [""];
    ["Non-negotiable compliance requirements"];
    [""];
    ["---"];
    [""];
    ["**HIGH PRIORITY REQUIREMENTS (Rules 47-100)**"];
    [""];
    ["Process integrity requirements ensuring fair competition and transparency"];
    [""];
    ["**Violation results in:** valid complaints from bidders/proposers, process delays, repeat of procurement activities, reputational damage, potential legal challenges"];
    [""];
    ["Critical for maintaining procurement process credibility"];
    [""];
    ["---"];
    [""];
    ["**IMPORTANT OPERATIONAL REQUIREMENTS (Rules 101-190)**"];
    [""];
    ["Best practice requirements ensuring efficient procurement and value for money"];
    [""];
    ["**Violation results in:** suboptimal outcomes, reduced value for money, implementation delays, missed opportunities for innovation/sustainability, weaker contract management"];
    [""];
    ["Essential for procurement excellence and project success`,"];
    ["        rules: []"];
    ["    },"];
    ["    {"];
    ["        title: "; "Notes on Citations"; ","];
    ["        priority: "; "info"; ","];
    ["        isInfoSection: true,"];
    ["        content: `All rules are derived from official World Bank procurement documents:"];
    [""];
    ["1. **PR2025**: References include Section number, Paragraph number, Annex number (if applicable), and page number"];
    ["2. **EVAL2024**: References include Form number, Section name, Annex number (if applicable), and page number"];
    [""];
    ["**Abbreviations Used:**"];
    ["- Para = Paragraph"];
    ["- p. = page"];
    ["- SPD = Standard Procurement Document"];
    ["- PPSD = Project Procurement Strategy for Development"];
    ["- VfM = Value for Money"];
    ["- KPI = Key Performance Indicator"];
    ["- SOE = State-Owned Enterprise"];
    ["- SEA/SH = Sexual Exploitation and Abuse/Sexual Harassment"];
    ["- BAFO = Best and Final Offer"];
    [""];
    ["**Document Availability:**"];
    ["- PR2025 is publicly available at www.worldbank.org/procurement"];
    ["- EVAL2024 templates are available at www.worldbank.org/procurement/standarddocuments`,"];
    ["        rules: []"];
    ["    },"];
    ["];"] ].

(** [ts_output] of [parse_rules_complete.py]. *)
Definition ts_output (sections : Document) : str :=
  header_complete ++ flat_map section_text sections ++ info_sections.

End Emit.

(** * The terms the properties are stated in *)

(** ** Lists of lines *)

(** The longest prefix of a list whose elements all pass a test. *)
Fixpoint take_while {A} (p : A -> bool) (l : list A) : list A :=
  match l with
  | x :: l' => if p x then x :: take_while p l' else []
  | [] => []
  end.

(** A list of strings without the empty ones it starts with. *)
Fixpoint skip_empty (xs : list str) : list str :=
  match xs with
  | [] :: xs' => skip_empty xs'
  | _ => xs
  end.

Definition opt_list {A} (o : option A) : list A :=
  match o with Some a => [a] | None => [] end.



(** The first character of [s], if there is one, is outside the class. *)
Definition head_fails (p : ascii -> bool) (s : str) : Prop :=
  match s with
  | c :: _ => p c = false
  | [] => True
  end.


(** ** Header, bullet and source lines *)





(** The source the scripts read from the line the description stopped on,
    [None] when the input ended there; [marker] is the text whose presence
    they test. *)
Definition source_of (marker : str) (stop : option str) : str :=
  match stop with
  | Some t =>
      if Py.contains t marker
      then Py.strip (Py.replace (Py.strip t) (lit "- **Source**:") [])
      else []
  | None => []
  end.



(** ** Sections and priorities *)

(** The four tiers a priority may be. *)
Definition tiers : list (option str) :=
  [ Some (lit "critical"); Some (lit "high"); Some (lit "important");
    Some (lit "info") ].

(** The section that a flush of [parse_rules.py] appends. *)
Definition open_section (st : ParseRules.state) : ProcurementSection :=
  {| sec_title :=
       match ParseRules.current_section st with Some t => t | None => [] end;
     sec_priority := ParseRules.current_priority st;
     sec_rules := ParseRules.rules st |}.

(** The guard of the two appends: a section is open, its title is not
    empty, and rules are pending. *)
Definition closes (st : ParseRules.state) : bool :=
  Py.truthy (ParseRules.current_section st)
  && Py.nonempty (ParseRules.rules st).

(** Either nothing is appended yet and the pending rules start with [R], or
    the first section appended starts with [R]. *)
Definition carries (R : list ProcurementRule) (secs : list ProcurementSection)
    (pending : list ProcurementRule) : Prop :=
  match secs with
  | [] => exists own, pending = R ++ own
  | sec :: _ => exists own, sec_rules sec = R ++ own
  end.

(** Once a section with a title is open and a rule is pending, or a section
    has been appended, the document will not be empty. *)
Definition will_emit (st : ParseRules.state) : Prop :=
  ParseRules.sections st <> [] \/ closes st = true.

(** In the grouping pass a section is open whenever rules are pending, so
    the title is always there to be read. *)
Definition grouping_ok (g : Complete.grouping) : Prop :=
  Complete.section_rules g <> [] -> Complete.current_section g <> None.

(** ** Reading the emitted text back

    The scripts write the module and read nothing back.  The two readers
    below follow the words of the specification: the number fields are taken
    from the lines of the text, and a string literal is read by the rules of
    the language the module is written in. *)

(** The number field of a line: stripped, the line starts with the field
    name and ends with a comma, with the decimal digits of the number in
    between. *)
Definition number_field (line : str) : option N :=
  let t := Py.strip line in
  if Py.startswith t (lit "number: ") && Py.endswith t (lit ",") then
    match Py.int (removelast (skipn 8 t)) with
    | Done n => Some n
    | _ => None
    end
  else None.

(** The number fields of the emitted text, line by line, in order. *)
Definition read_numbers (ts : str) : list N :=
  flat_map (fun l => opt_list (number_field l)) (Py.split ts nl).

Definition cr : ascii := "013"%char.

(** The character an escape sequence of one character stands for in a
    TypeScript string literal.  The escapes that take more characters
    (hexadecimal, Unicode, octal) and the line continuation are outside the
    model. *)
Definition unescape (e : ascii) : option ascii :=
  if Ascii.eqb e "b" then Some "008"%char
  else if Ascii.eqb e "t" then Some "009"%char
  else if Ascii.eqb e "n" then Some nl
  else if Ascii.eqb e "v" then Some "011"%char
  else if Ascii.eqb e "f" then Some "012"%char
  else if Ascii.eqb e "r" then Some cr
  else if Ascii.eqb e "0" then Some "000"%char
  else if Ascii.eqb e "x" || Ascii.eqb e "u" || Py.isdigit e
          || Ascii.eqb e nl || Ascii.eqb e cr then None
  else Some e.

(** The text of a double-quoted literal from behind its opening quote up to
    the closing quote, with what follows the literal.  A quote closes the
    literal unless a backslash stands before it; the literal may not run over
    the end of the line. *)
Fixpoint read_body (s : str) : option (str * str) :=
  match s with
  | [] => None
  | c :: s' =>
      if Ascii.eqb c dq then Some ([], s')
      else if Ascii.eqb c nl || Ascii.eqb c cr then None
      else if Ascii.eqb c bs then
        match s' with
        | [] => None
        | e :: s'' =>
            match unescape e, read_body s'' with
            | Some x, Some (v, rest) => Some (x :: v, rest)
            | _, _ => None
            end
        end
      else
        match read_body s' with
        | Some (v, rest) => Some (c :: v, rest)
        | None => None
        end
  end.

(** Parsing a string literal back: its value and the text behind it. *)
Definition read_literal (s : str) : option (str * str) :=
  match s with
  | c :: s' => if Ascii.eqb c dq then read_body s' else None
  | [] => None
  end.

(** A text field as the emitters write it: escaped, between double quotes. *)
Definition field_literal (s : str) : str := [dq] ++ Emit.escape s ++ [dq].

(** A character that is neither a backslash nor the end of a line. *)
Definition plain (c : ascii) : bool :=
  negb (Ascii.eqb c bs) && negb (Ascii.eqb c nl) && negb (Ascii.eqb c cr).

(** ** The lines of the emitted text *)








(** ** The sections of the grouping pass *)

(** The number closes a section in [parse_rules_complete.py]. *)
Definition is_boundary (n : N) : bool := existsb (N.eqb n) Complete.boundaries.

Definition inner_rule (r : ProcurementRule) : bool :=
  negb (is_boundary (number r)).

(** A section closed inside the loop: its last rule has a boundary number,
    no rule before it has one, and the priority is read off that number. *)
Definition closed_at_boundary (s : ProcurementSection) : Prop :=
  exists front r,
    sec_rules s = front ++ [r]
    /\ is_boundary (number r) = true
    /\ forallb inner_rule front = true
    /\ sec_priority s = Some (Complete.priority_of (number r)).

(** The section made of the rules left over after the loop. *)
Definition left_over (s : ProcurementSection) : Prop :=
  sec_rules s <> []
  /\ forallb inner_rule (sec_rules s) = true
  /\ sec_priority s = Some (lit "important").

(** The title of the section that comes after [s]: the one the number of the
    last rule of [s] selects. *)
Definition next_of (s : ProcurementSection) : str :=
  match rev (sec_rules s) with
  | r :: _ =>
      match Complete.next_title (number r) with
      | Some t => t
      | None => sec_title s
      end
  | [] => sec_title s
  end.

(** The sections carry, one after the other, the titles the chain gives,
    starting from [t]. *)
Fixpoint chained (t : str) (secs : list ProcurementSection) : Prop :=
  match secs with
  | [] => True
  | s :: rest => sec_title s = t /\ chained (next_of s) rest
  end.

(** The title the chain has reached behind [secs]. *)
Definition end_title (t : str) (secs : list ProcurementSection) : str :=
  fold_left (fun _ s => next_of s) secs t.

(** Every rule, appended to a section or still pending in the grouping. *)
Definition grouped (g : Complete.grouping) : list ProcurementRule :=
  flat_map sec_rules (Complete.sections g) ++ Complete.section_rules g.

(** ** Rules and sections of [parse_rules.py] *)

(** Every rule the scanner holds: in the sections appended, then pending. *)
Definition held (st : ParseRules.state) : list ProcurementRule :=
  flat_map sec_rules (ParseRules.sections st) ++ ParseRules.rules st.



(** ** Fields *)

(** A rule as either scanner builds it: a title that is not empty and a
    source without white space at its ends. *)
Definition tidy (r : ProcurementRule) : Prop :=
  title r <> [] /\ Py.strip (source r) = source r.

Definition is_quote (c : ascii) : bool := Ascii.eqb c dq || Ascii.eqb c sq.

(** Every quote of [s] has a backslash right before it; [after] tells
    whether the character before [s] was one. *)
Fixpoint quotes_guarded (after : bool) (s : str) : bool :=
  match s with
  | [] => true
  | c :: s' =>
      (if is_quote c then after else true)
      && quotes_guarded (Ascii.eqb c bs) s'
  end.


(** The groups a rule comes from: its number as read by [int], its title. *)
Definition from_header (h : str * str) (r : ProcurementRule) : Prop :=
  Py.int (fst h) = Done (number r) /\ title r = snd h.

(** The title of the first section of [parse_rules_complete.py]. *)
Definition core_title : str := lit "Core Principles & Legal Framework".

(** How the grouping pass cuts the sections. *)
Definition cut_ok (g : Complete.grouping) : Prop :=
  Forall closed_at_boundary (Complete.sections g)
  /\ forallb inner_rule (Complete.section_rules g) = true.

(** How the titles of the grouping pass follow one another. *)
Definition titles_ok (g : Complete.grouping) : Prop :=
  chained core_title (Complete.sections g)
  /\ match Complete.current_section g with
     | Some t => t = end_title core_title (Complete.sections g)
     | None => Complete.sections g = []
     end.


(** * Properties *)

(** ** Worked examples *)

Example strip_ex : Py.strip (lit "  - a b  ") = lit "- a b".
Proof. reflexivity. Qed.

Example split_ex :
  Py.split (lit "a
b

c") nl = [lit "a"; lit "b"; lit ""; lit "c"].
Proof. reflexivity. Qed.

Example replace_ex :
  Py.replace (Py.replace (lit "### **A ** B**") (lit "### **") []) (lit "**") []
  = lit "A  B".
Proof. reflexivity. Qed.

Example rule_header_ex :
  Re.rule_header (lit "**3. Mandatory Review Threshold**")
  = Some (lit "3", lit "Mandatory Review Threshold").
Proof. reflexivity. Qed.

Example rule_header_backtracks :
  Re.rule_header (lit "**12.  **") = Some (lit "12", lit " ").
Proof. reflexivity. Qed.

Example rule_header_stars :
  Re.rule_header (lit "**7. a****") = Some (lit "7", lit "a**").
Proof. reflexivity. Qed.

Example rule_header_dollar :
  Re.rule_header (lit "**1. a**" ++ [nl]) = Some (lit "1", lit "a")
  /\ Re.rule_header (lit "**1. **") = None.
Proof. split; reflexivity. Qed.

Example int_ex : Py.int (lit "0190") = Done 190%N.
Proof. reflexivity. Qed.

Example str_of_int_ex : Py.str_of_int 190 = lit "190" /\ Py.str_of_int 0 = lit "0".
Proof. split; reflexivity. Qed.

Example parse_rules_example :
  ParseRules.extract (lit "## **HIGH PRIORITY REQUIREMENTS**
### **Thresholds**
" ++ example_input)
  = Done [ {| sec_title := lit "Thresholds"; sec_priority := Some (lit "high");
              sec_rules := [example_rule] |} ].
Proof. vm_compute. reflexivity. Qed.

Example parse_rules_no_header : ParseRules.extract example_input = Done [].
Proof. vm_compute. reflexivity. Qed.

Example complete_example :
  Complete.extract example_input
  = Done [ {| sec_title := lit "Core Principles & Legal Framework";
              sec_priority := Some (lit "critical");
              sec_rules := [example_rule] |} ].
Proof. vm_compute. reflexivity. Qed.

Section EmitExample.
Import Emit.
Local Open Scope string_scope.
Local Open Scope list_scope.

Example rule_text_ex :
  rule_text example_rule
  = template [
      ["            {"];
      ["                number: 3,"];
      ["                title: "; "Mandatory Review Threshold"; ","];
      ["                description: "; "All contracts above $X require review"; ","];
      ["                source: "; "PR2025, Section 4, p.12"; ""];
      ["            },"] ].
Proof. vm_compute. reflexivity. Qed.

End EmitExample.

(** ** Facts about the string built-ins *)

Lemma startswith_app (p r : str) : Py.startswith (p ++ r) p = true.
Proof.
  induction p as [|a p IH]; simpl; [reflexivity|].
  now rewrite Ascii.eqb_refl.
Qed.

Lemma startswith_split (s p : str) :
  Py.startswith s p = true -> s = p ++ skipn (length p) s.
Proof.
  revert s; induction p as [|a p IH]; intros [|b s] H; simpl in *;
    try reflexivity; try discriminate.
  apply andb_prop in H as [Hab H].
  apply Ascii.eqb_eq in Hab; subst b.
  f_equal; auto.
Qed.


Lemma skipn_length_app {A} (p r : list A) : skipn (length p) (p ++ r) = r.
Proof. induction p; simpl; auto. Qed.

(** ** Facts about the patterns *)

(** What a successful repetition took: a non-empty run of the class. *)
Lemma plus_sound {A} (p : ascii -> bool) (k : str -> str -> option A) :
  forall s taken r,
    Re.plus p k taken s = Some r ->
    exists run rest,
      run <> [] /\ forallb p run = true /\ s = run ++ rest
      /\ k (taken ++ run) rest = Some r.
Proof.
  induction s as [|c s IH]; intros taken r H; simpl in H; [discriminate|].
  destruct (p c) eqn:Hc; [|discriminate].
  destruct (Re.plus p k (taken ++ [c]) s) as [r'|] eqn:Hrec.
  - injection H as <-.
    destruct (IH _ _ Hrec) as (run & rest & _ & Hall & -> & Hk).
    exists (c :: run), rest; simpl.
    rewrite Hc, Hall, <- app_assoc in *; simpl in *.
    repeat split; auto; discriminate.
  - exists [c], s; simpl; rewrite Hc.
    repeat split; auto; discriminate.
Qed.

Lemma text_sound {A} (t : str) (k : str -> option A) (s : str) (r : A) :
  Re.text t k s = Some r -> exists rest, s = t ++ rest /\ k rest = Some r.
Proof.
  unfold Re.text; destruct (Py.startswith s t) eqn:H; [|discriminate].
  intros Hk; exists (skipn (length t) s); split; auto.
  now apply startswith_split.
Qed.

(** The shape of a line the full pattern accepts. *)
Lemma rule_header_sound (line g1 g2 : str) :
  Re.rule_header line = Some (g1, g2) ->
  exists ws tail,
    line = lit "**" ++ g1 ++ lit "." ++ ws ++ g2 ++ lit "**" ++ tail
    /\ g1 <> [] /\ forallb Py.isdigit g1 = true
    /\ ws <> [] /\ forallb Py.isspace ws = true
    /\ g2 <> [] /\ forallb Re.dot g2 = true
    /\ Re.at_end tail = true.
Proof.
  unfold Re.rule_header; intros H.
  apply text_sound in H as (s1 & -> & H).
  apply plus_sound in H as (d & s2 & Hd & Hdig & -> & H).
  apply text_sound in H as (s3 & -> & H).
  apply plus_sound in H as (w & s4 & Hw & Hsp & -> & H).
  apply plus_sound in H as (t & s5 & Ht & Hdot & -> & H).
  apply text_sound in H as (s6 & -> & H).
  destruct (Re.at_end s6) eqn:He; [|discriminate].
  simpl in H; injection H as <- <-.
  exists w, s6; repeat split; auto.
Qed.

Lemma int_digits (g : str) :
  g <> [] -> forallb Py.isdigit g = true -> exists n, Py.int g = Done n.
Proof.
  intros Hne Hd; unfold Py.int; rewrite Hd.
  destruct g; [contradiction|]; simpl; eauto.
Qed.

Lemma rule_header_int (line g1 g2 : str) :
  Re.rule_header line = Some (g1, g2) -> exists n, Py.int g1 = Done n.
Proof.
  intros H; apply rule_header_sound in H as (ws & tail & _ & Hne & Hd & _).
  now apply int_digits.
Qed.

(** ** The scans end and raise nothing *)

Section ParseRulesTotal.
Import ParseRules.






End ParseRulesTotal.

Section CompleteTotal.
Import Complete.






Lemma group_step_done (g : grouping) (rule : ProcurementRule) :
  exists g', group_step g rule = Done g' /\ grouping_ok g'.
Proof.
  unfold group_step, grouping_ok.
  destruct (existsb _ _).
  - destruct (current_section g); simpl;
      (eexists; split; [reflexivity|]); simpl; congruence.
  - eexists; split; [reflexivity|]; simpl.
    destruct (current_section g); congruence.
Qed.

Lemma group_loop_done (rules : list ProcurementRule) :
  forall g, grouping_ok g ->
    exists g', group_loop rules g = Done g' /\ grouping_ok g'.
Proof.
  induction rules as [|r rules IH]; intros g Hg; simpl; [eauto|].
  destruct (group_step_done g r) as (g1 & -> & H1); simpl; auto.
Qed.

Lemma group_done (rules : list ProcurementRule) :
  exists doc, group rules = Done doc.
Proof.
  unfold group.
  destruct (group_loop_done rules grouping_init) as (g & -> & Hg);
    [intros H; now elim H|]; simpl.
  unfold group_finish.
  destruct (section_rules g) eqn:Hs; simpl; [eauto|].
  destruct (current_section g) eqn:Hc; simpl; [eauto|].
  exfalso; apply Hg; [rewrite Hs; discriminate | assumption].
Qed.


End CompleteTotal.


(** ** Matching a rule header *)

Arguments lit : simpl never.

(** A run of the class whose every prefix the continuation refuses is
    refused as a whole. *)
Lemma plus_fail {A} (p : ascii -> bool) (k : str -> str -> option A)
    (rest : str) :
  head_fails p rest ->
  forall back taken,
    forallb p back = true ->
    (forall b1 b2, back = b1 ++ b2 -> b1 <> [] ->
                   k (taken ++ b1) (b2 ++ rest) = None) ->
    Re.plus p k taken (back ++ rest) = None.
Proof.
  intros Hrest; induction back as [|c back IH]; intros taken Hall Hk; simpl.
  - destruct rest as [|c rest]; simpl in *; [reflexivity|now rewrite Hrest].
  - simpl in Hall; apply andb_prop in Hall as [Hc Hall]; rewrite Hc.
    rewrite IH; auto.
    + apply (Hk [c] back); [reflexivity|discriminate].
    + intros b1 b2 -> Hb1; rewrite <- app_assoc; simpl.
      apply (Hk (c :: b1) b2); [reflexivity|discriminate].
Qed.

(** The repetition settles on the longest run that the continuation
    accepts: [run], once every longer one was refused. *)
Lemma plus_backtrack {A} (p : ascii -> bool) (k : str -> str -> option A)
    (back rest : str) (r : A) :
  head_fails p rest ->
  forallb p back = true ->
  forall run taken,
    run <> [] ->
    forallb p run = true ->
    (forall b1 b2, back = b1 ++ b2 -> b1 <> [] ->
                   k (taken ++ run ++ b1) (b2 ++ rest) = None) ->
    k (taken ++ run) (back ++ rest) = Some r ->
    Re.plus p k taken (run ++ back ++ rest) = Some r.
Proof.
  intros Hrest Hback; induction run as [|c run IH]; intros taken Hne Hall Hk Hr;
    [contradiction|].
  simpl in Hall; apply andb_prop in Hall as [Hc Hall]; simpl; rewrite Hc.
  destruct run as [|c' run].
  - simpl. rewrite (plus_fail p k rest Hrest back (taken ++ [c]) Hback).
    + exact Hr.
    + intros b1 b2 Hb Hb1; rewrite <- app_assoc; simpl. now apply Hk.
  - rewrite (IH (taken ++ [c])); auto; try discriminate.
    + intros b1 b2 Hb Hb1; rewrite <- app_assoc; simpl. now apply Hk.
    + rewrite <- app_assoc; exact Hr.
Qed.

Lemma plus_greedy {A} (p : ascii -> bool) (k : str -> str -> option A)
    (run rest : str) (r : A) :
  head_fails p rest -> run <> [] -> forallb p run = true ->
  k run rest = Some r ->
  Re.plus p k [] (run ++ rest) = Some r.
Proof.
  intros Hrest Hne Hall Hk.
  apply (plus_backtrack p k [] rest r Hrest eq_refl run []); auto.
  intros [|? ?] b2 Hb Hb1; [contradiction|discriminate].
Qed.

Lemma text_app {A} (t : str) (k : str -> option A) (s : str) :
  Re.text t k (t ++ s) = k s.
Proof. unfold Re.text; now rewrite startswith_app, skipn_length_app. Qed.

(** A line the full pattern accepts passes the shorter test before it, and
    is neither a tier header nor a section header. *)
Lemma rule_header_start (line g1 g2 : str) :
  Re.rule_header line = Some (g1, g2) -> Re.rule_start line = true.
Proof.
  intros H; apply rule_header_sound in H
    as (ws & tail & -> & Hne & Hd & _).
  unfold Re.rule_start; rewrite text_app.
  rewrite (plus_greedy Py.isdigit _ g1 _ tt); auto; reflexivity.
Qed.

Lemma rule_header_no_tier (line g1 g2 : str) :
  Re.rule_header line = Some (g1, g2) ->
  ParseRules.tier line = None /\ ParseRules.is_section_header line = false.
Proof.
  intros H; apply rule_header_sound in H as (ws & tail & -> & _).
  split; reflexivity.
Qed.

Lemma forallb_dot_stars (t : str) :
  forallb Re.dot t = true -> forallb Re.dot (t ++ lit "**") = true.
Proof. intros H; rewrite forallb_app, H; reflexivity. Qed.


(** ** What the rule branch reads *)

Lemma join_cons_glue (sep d f : str) (rest : list str) :
  Py.join sep ((d ++ sep ++ f) :: rest) = d ++ sep ++ Py.join sep (f :: rest).
Proof.
  destruct rest as [|x rest]; simpl; [reflexivity|].
  now rewrite <- !app_assoc.
Qed.

Section ParseRulesRead.
Import ParseRules.

Lemma description_loop_spec (rest : list str) :
  forall j d,
    description_loop rest j d
    = (j + length (take_while is_description rest),
       fold_left add_fragment (take_while is_description rest) d).
Proof.
  induction rest as [|l rest IH]; intros j d; simpl; [f_equal; lia|].
  destruct (is_description l); simpl; [|f_equal; lia].
  rewrite IH; f_equal; lia.
Qed.

Lemma glue_nonempty (ls : list str) :
  forall d, d <> [] ->
    fold_left add_fragment ls d = Py.join (lit " ") (d :: map fragment ls).
Proof.
  induction ls as [|l ls IH]; intros d Hd; [reflexivity|].
  cbn [fold_left map]. rewrite IH.
  - unfold add_fragment. destruct d; [contradiction|].
    cbn [Py.nonempty]. rewrite <- app_assoc. apply join_cons_glue.
  - unfold add_fragment; destruct d; [contradiction|discriminate].
Qed.

(** The description of [parse_rules.py]: the fragments joined by single
    spaces, the empty ones at the front left out. *)
Lemma glue_spec (ls : list str) :
  fold_left add_fragment ls []
  = Py.join (lit " ") (skip_empty (map fragment ls)).
Proof.
  induction ls as [|l ls IH]; [reflexivity|].
  cbn [fold_left map]. unfold add_fragment at 2; cbn [Py.nonempty app].
  destruct (fragment l) as [|c f] eqn:Hf.
  - exact IH.
  - rewrite glue_nonempty; [reflexivity|discriminate].
Qed.

Lemma read_rule_spec (lines : list str) (st : state) (l g1 g2 : str) :
  nth_error lines (i st) = Some l ->
  Re.rule_header (Py.strip l) = Some (g1, g2) ->
  exists n,
    Py.int g1 = Done n /\
    body lines l st
    = Done
        {| sections := sections st;
           current_section := current_section st;
           current_priority := current_priority st;
           rules := rules st ++
             [ {| number := n; title := g2;
                  description :=
                    Py.join (lit " ")
                      (skip_empty
                         (map fragment
                            (take_while is_description
                               (skipn (S (i st)) lines))));
                  source :=
                    source_of (lit "- **Source**:")
                      (nth_error (skipn (S (i st)) lines)
                         (length (take_while is_description
                                    (skipn (S (i st)) lines)))) |} ];
           i := S (S (i st)
                   + length (take_while is_description
                               (skipn (S (i st)) lines))) |}.
Proof.
  intros Hl H.
  destruct (rule_header_int _ _ _ H) as [n Hn]; exists n; split; [exact Hn|].
  unfold body.
  destruct (rule_header_no_tier _ _ _ H) as [-> ->].
  rewrite (rule_header_start _ _ _ H), H.
  unfold read_rule; rewrite Hn; cbn [bind].
  rewrite description_loop_spec, glue_spec.
  cbn [bind]; unfold advance, append_rule, source_at, source_of.
  rewrite nth_error_skipn; reflexivity.
Qed.

End ParseRulesRead.

Section CompleteRead.
Import Complete.



End CompleteRead.





(** ** The headers of [parse_rules.py] *)

Lemma tier_of_header (line h p : str) :
  In (h, p) ParseRules.tier_headers ->
  Py.startswith line h = true ->
  ParseRules.tier line = Some p.
Proof.
  intros Hin Hs; apply startswith_split in Hs; rewrite Hs.
  generalize (skipn (length h) line); intros r.
  simpl in Hin.
  destruct Hin as [Hin|[Hin|[Hin|[Hin|[]]]]]; injection Hin as <- <-;
    reflexivity.
Qed.

(** C5.  In [parse_rules.py] a line that starts with one of the four tier
    headers only sets the current tier, to the tier of that header: the
    sections appended so far, the title of the open section and the pending
    rules stay as they were, and the scan moves on to the next line. *)
Theorem tier_header_frame (lines : list str) (st : ParseRules.state)
    (l h p : str) :
  nth_error lines (ParseRules.i st) = Some l ->
  In (h, p) ParseRules.tier_headers ->
  Py.startswith (Py.strip l) h = true ->
  ParseRules.step lines st
  = Some (Done {| ParseRules.sections := ParseRules.sections st;
                  ParseRules.current_section := ParseRules.current_section st;
                  ParseRules.current_priority := Some p;
                  ParseRules.rules := ParseRules.rules st;
                  ParseRules.i := S (ParseRules.i st) |}).
Proof.
  intros Hl Hin Hs.
  unfold ParseRules.step, ParseRules.body; rewrite Hl.
  now rewrite (tier_of_header _ h p Hin Hs).
Qed.

Lemma tier_header_frame_witness :
  let open :=
    {| ParseRules.sections := [];
       ParseRules.current_section := Some (lit "Thresholds");
       ParseRules.current_priority := Some (lit "critical");
       ParseRules.rules := [example_rule];
       ParseRules.i := 1 |} in
  ParseRules.step
    [lit "intro"; lit "  ## **HIGH PRIORITY REQUIREMENTS** (Rules 47-100)"] open
  = Some (Done {| ParseRules.sections := [];
                  ParseRules.current_section := Some (lit "Thresholds");
                  ParseRules.current_priority := Some (lit "high");
                  ParseRules.rules := [example_rule];
                  ParseRules.i := 2 |}).
Proof.
  intros open.
  apply (tier_header_frame
           [lit "intro"; lit "  ## **HIGH PRIORITY REQUIREMENTS** (Rules 47-100)"]
           open (lit "  ## **HIGH PRIORITY REQUIREMENTS** (Rules 47-100)")
           (lit "## **HIGH PRIORITY REQUIREMENTS**") (lit "high")).
  - reflexivity.
  - right; left; reflexivity.
  - reflexivity.
Defined.

(** ** Stripping, searching and replacing *)











(** ** The description run and the source line *)







(** ** A well-formed rule *)








(** ** Sections of [parse_rules.py]: when they are appended *)

Section ParseRulesSections.
Import ParseRules.

Lemma flush_spec (st : state) :
  flush st
  = if closes st
    then {| sections := sections st ++ [open_section st];
            current_section := current_section st;
            current_priority := current_priority st;
            rules := [];
            i := i st |}
    else st.
Proof.
  unfold flush, closes, open_section, Py.truthy.
  destruct (current_section st); [|reflexivity].
  destruct (Py.nonempty s && Py.nonempty (rules st)); reflexivity.
Qed.

Lemma section_header_no_tier (line : str) :
  is_section_header line = true -> tier line = None.
Proof.
  unfold is_section_header; intros H; apply andb_prop in H as [H _].
  apply startswith_split in H; rewrite H; reflexivity.
Qed.

Lemma section_header_step (lines : list str) (st : state) (l : str) :
  nth_error lines (i st) = Some l ->
  is_section_header (Py.strip l) = true ->
  step lines st
  = Some (Done (advance (set_section (section_name (Py.strip l)) (flush st)))).
Proof.
  intros Hl H; unfold step, body; rewrite Hl.
  now rewrite (section_header_no_tier _ H), H.
Qed.

Lemma closes_true (st : state) :
  current_section st <> Some [] ->
  (closes st = true <-> current_section st <> None /\ rules st <> []).
Proof.
  unfold closes, Py.truthy; intros Hne.
  destruct (current_section st) as [[|c t]|]; [contradiction| |];
    destruct (rules st); simpl; split; try discriminate; try tauto;
    try (intros _; split; discriminate).
Qed.

End ParseRulesSections.

Section ParseRulesFlush.
Import ParseRules.

Lemma closes_false (st : state) :
  current_section st = None \/ rules st = [] -> closes st = false.
Proof.
  unfold closes; intros [H|H]; rewrite H; [reflexivity|apply andb_false_r].
Qed.

(** C4, as the script has it.  When a section header is scanned, and when the
    input ends, the open section is appended exactly when a section is open
    and rules are pending; it takes all the pending rules, whenever they were
    matched, and the accumulator is emptied.  So a section header scanned
    with no rule pending, and followed at once by another section header or
    by the end of the input, appends nothing, and the end of the input
    flushes an open section that has a pending rule.  (A section whose
    header gives an empty title is left aside.) *)
Theorem section_appended_iff_pending (lines : list str) (st : state) :
  current_section st <> Some [] ->
  (forall l,
      nth_error lines (i st) = Some l ->
      is_section_header (Py.strip l) = true ->
      exists st',
        step lines st = Some (Done st')
        /\ current_section st' = Some (section_name (Py.strip l))
        /\ (current_section st <> None /\ rules st <> [] ->
            sections st' = sections st ++ [open_section st]
            /\ rules st' = [])
        /\ (current_section st = None \/ rules st = [] ->
            sections st' = sections st /\ rules st' = rules st))
  /\ (current_section st <> None /\ rules st <> [] ->
      finish st = sections st ++ [open_section st])
  /\ (current_section st = None \/ rules st = [] -> finish st = sections st)
  /\ (rules st = [] ->
      forall l1,
        nth_error lines (i st) = Some l1 ->
        is_section_header (Py.strip l1) = true ->
        exists st1,
          step lines st = Some (Done st1)
          /\ sections st1 = sections st
          /\ (nth_error lines (S (i st)) = None -> finish st1 = sections st)
          /\ (forall l2,
                 nth_error lines (S (i st)) = Some l2 ->
                 is_section_header (Py.strip l2) = true ->
                 exists st2,
                   step lines st1 = Some (Done st2)
                   /\ sections st2 = sections st
                   /\ current_section st2
                      = Some (section_name (Py.strip l2)))).
Proof.
  intros Hne; repeat split.
  - intros l Hl H; rewrite (section_header_step lines st l Hl H).
    eexists; split; [reflexivity|]; rewrite flush_spec.
    split; [destruct (closes st); reflexivity|]; split; intros Hc.
    + apply (closes_true st Hne) in Hc; rewrite Hc; split; reflexivity.
    + rewrite (closes_false st Hc); split; reflexivity.
  - intros Hc; unfold finish; rewrite flush_spec.
    apply (closes_true st Hne) in Hc; now rewrite Hc.
  - intros Hc; unfold finish; rewrite flush_spec.
    now rewrite (closes_false st Hc).
  - intros Hr l1 Hl1 H1; rewrite (section_header_step lines st l1 Hl1 H1).
    eexists; split; [reflexivity|].
    rewrite flush_spec, (closes_false st (or_intror Hr)).
    split; [reflexivity|]; split.
    + intros _; unfold finish; rewrite flush_spec, closes_false;
        [reflexivity|right; exact Hr].
    + intros l2 Hl2 H2.
      rewrite (section_header_step lines
                 (advance (set_section (section_name (Py.strip l1)) st))
                 l2 Hl2 H2).
      eexists; split; [reflexivity|].
      rewrite flush_spec, closes_false; [split; reflexivity|right; exact Hr].
Qed.

Lemma section_appended_iff_pending_witness :
  let lines := [lit "### **Planning**"; lit "### **Award**"] in
  exists st1,
    step lines init = Some (Done st1)
    /\ sections st1 = []
    /\ (forall l2,
           nth_error lines 1 = Some l2 ->
           is_section_header (Py.strip l2) = true ->
           exists st2,
             step lines st1 = Some (Done st2)
             /\ sections st2 = []
             /\ current_section st2 = Some (section_name (Py.strip l2))).
Proof.
  intros lines.
  destruct (section_appended_iff_pending lines init) as (_ & _ & _ & H);
    [discriminate|].
  destruct (H eq_refl (lit "### **Planning**") eq_refl eq_refl)
    as (st1 & H1 & H2 & _ & H3).
  exists st1; auto.
Defined.

(** C4 as stated fails: a rule matched before the first section header is
    still pending when the header comes, so the section of that header is
    appended although another header follows it at once. *)
Lemma empty_section_emitted :
  let content := lit "**1. Early**
- text
- **Source**: s
### **Planning**
### **Award**" in
  let lines := Py.split content nl in
  nth_error lines 3 = Some (lit "### **Planning**")
  /\ nth_error lines 4 = Some (lit "### **Award**")
  /\ is_section_header (lit "### **Planning**") = true
  /\ is_section_header (lit "### **Award**") = true
  /\ extract content
     = Done [ {| sec_title := lit "Planning"; sec_priority := None;
                 sec_rules := [ {| number := 1; title := lit "Early";
                                   description := lit "text";
                                   source := lit "s" |} ] |} ].
Proof. cbv zeta; repeat split; vm_compute; reflexivity. Qed.

End ParseRulesFlush.

Section ParseRulesPending.
Import ParseRules.

(** A turn of the main loop either leaves the sections alone and only adds
    to the pending rules, or is the flush at a section header. *)
Lemma body_effect (lines : list str) (l : str) (st st' : state) :
  body lines l st = Done st' ->
  (sections st' = sections st
   /\ current_section st' = current_section st
   /\ exists extra, rules st' = rules st ++ extra)
  \/ (is_section_header (Py.strip l) = true
      /\ sections st' = sections (flush st)
      /\ current_section st' = Some (section_name (Py.strip l))
      /\ rules st' = rules (flush st)).
Proof.
  unfold body.
  destruct (tier (Py.strip l)).
  { intros [= <-]; left; repeat split; exists []; symmetry; apply app_nil_r. }
  destruct (is_section_header (Py.strip l)).
  { intros [= <-]; right; repeat split. }
  destruct (Re.rule_start (Py.strip l));
    [|intros [= <-]; left; repeat split; exists []; symmetry; apply app_nil_r].
  destruct (Re.rule_header (Py.strip l)) as [[g1 g2]|];
    [|intros [= <-]; left; repeat split; exists []; symmetry; apply app_nil_r].
  unfold read_rule; destruct (Py.int g1) as [n| |]; cbn [bind]; try discriminate.
  destruct (description_loop _ _ _) as [j d].
  intros [= <-]; left; repeat split; eexists; reflexivity.
Qed.

Lemma carries_flush (R : list ProcurementRule) (st : state) :
  carries R (sections st) (rules st) ->
  carries R (sections (flush st)) (rules (flush st)).
Proof.
  rewrite flush_spec; destruct (closes st); [|auto].
  unfold carries; cbn [sections rules].
  destruct (sections st); simpl; auto.
Qed.

Lemma carries_body (R : list ProcurementRule) (lines : list str) (l : str)
    (st st' : state) :
  body lines l st = Done st' ->
  carries R (sections st) (rules st) ->
  carries R (sections st') (rules st').
Proof.
  intros Hb Hc; apply body_effect in Hb
    as [(Hs & _ & extra & Hr)|(_ & Hs & _ & Hr)].
  - rewrite Hs, Hr; unfold carries in *.
    destruct (sections st); [|exact Hc].
    destruct Hc as [own ->]; exists (own ++ extra); symmetry; apply app_assoc.
  - rewrite Hs, Hr; now apply carries_flush.
Qed.

Lemma carries_loop (R : list ProcurementRule) (lines : list str) :
  forall fuel st st',
    loop fuel lines st = Done st' ->
    carries R (sections st) (rules st) ->
    carries R (sections st') (rules st').
Proof.
  induction fuel as [|fuel IH]; intros st st'; simpl;
    destruct (nth_error lines (i st)) as [l|]; try discriminate;
    try (now intros [= <-]).
  destruct (body lines l st) as [st1| |] eqn:Hb; cbn [bind]; try discriminate.
  intros Hl Hc; apply (IH st1 st' Hl); now apply (carries_body R lines l st).
Qed.

Lemma will_emit_flush (st : state) :
  will_emit st -> sections (flush st) <> [].
Proof.
  rewrite flush_spec; intros [H|H].
  - destruct (closes st); cbn [sections]; [|exact H].
    destruct (sections st); [contradiction|discriminate].
  - rewrite H; cbn [sections]. destruct (sections st); discriminate.
Qed.

Lemma will_emit_body (lines : list str) (l : str) (st st' : state) :
  body lines l st = Done st' -> will_emit st -> will_emit st'.
Proof.
  intros Hb Hw; apply body_effect in Hb
    as [(Hs & Hc & extra & Hr)|(_ & Hs & _ & _)].
  - destruct Hw as [Hw|Hw]; [left; now rewrite Hs|right].
    unfold closes in *; rewrite Hc, Hr.
    apply andb_prop in Hw as [-> Hw]; destruct (rules st); [discriminate|].
    reflexivity.
  - left; rewrite Hs; now apply will_emit_flush.
Qed.

Lemma will_emit_loop (lines : list str) :
  forall fuel st st',
    loop fuel lines st = Done st' -> will_emit st -> will_emit st'.
Proof.
  induction fuel as [|fuel IH]; intros st st'; simpl;
    destruct (nth_error lines (i st)) as [l|]; try discriminate;
    try (now intros [= <-]).
  destruct (body lines l st) as [st1| |] eqn:Hb; cbn [bind]; try discriminate.
  intros Hl Hw; apply (IH st1 st' Hl); now apply (will_emit_body lines l st).
Qed.

(** C10.  In [parse_rules.py] the rules matched before any section header
    stay pending: the first section header, scanned with no section open,
    appends nothing and leaves them in the accumulator; whatever the rest of
    the input is, the first section of the document, if the document has
    one, starts with them, and the document has one as soon as there are such
    rules and the header gives a title. *)
Theorem pending_rules_kept (lines : list str) (st : state) (l : str) :
  current_section st = None ->
  sections st = [] ->
  nth_error lines (i st) = Some l ->
  is_section_header (Py.strip l) = true ->
  exists st1,
    step lines st = Some (Done st1)
    /\ rules st1 = rules st
    /\ sections st1 = []
    /\ current_section st1 = Some (section_name (Py.strip l))
    /\ forall fuel st',
         loop fuel lines st1 = Done st' ->
         match finish st' with
         | [] => rules st = [] \/ section_name (Py.strip l) = []
         | sec :: _ => exists own, sec_rules sec = rules st ++ own
         end.
Proof.
  intros Hc Hs Hl H; rewrite (section_header_step lines st l Hl H).
  eexists; split; [reflexivity|].
  rewrite flush_spec, (closes_false st (or_introl Hc)).
  cbn [advance set_section rules sections current_section].
  repeat split; auto.
  intros fuel st' Hloop.
  pose proof (carries_loop (rules st) lines fuel _ st' Hloop) as Hcar.
  pose proof (will_emit_loop lines fuel _ st' Hloop) as Hw.
  cbn [advance set_section rules sections current_section] in Hcar, Hw.
  rewrite Hs in Hcar.
  specialize (Hcar (ex_intro _ [] (eq_sym (app_nil_r _)))).
  apply carries_flush in Hcar; unfold carries in Hcar.
  unfold finish; destruct (sections (flush st')) as [|sec secs] eqn:Hf;
    [|exact Hcar].
  destruct (rules st) as [|r R] eqn:HR; [now left|right].
  destruct (section_name (Py.strip l)) as [|c t] eqn:Hn; [reflexivity|].
  exfalso; apply (will_emit_flush st'); [|exact Hf].
  apply Hw; right; unfold closes.
  cbn [current_section rules advance set_section Py.truthy].
  rewrite HR; reflexivity.
Qed.

Lemma pending_rules_kept_witness :
  let lines :=
    [ lit "**1. Early**"; lit "- text"; lit "- **Source**: s";
      lit "### **Planning**"; lit "**2. Late**" ] in
  let early :=
    {| number := 1; title := lit "Early"; description := lit "text";
       source := lit "s" |} in
  let st :=
    {| sections := []; current_section := None; current_priority := None;
       rules := [early]; i := 3 |} in
  step lines init = Some (Done st)
  /\ exists st1,
       step lines st = Some (Done st1)
       /\ rules st1 = [early]
       /\ sections st1 = []
       /\ forall fuel st',
            loop fuel lines st1 = Done st' ->
            match finish st' with
            | [] => [early] = [] \/ lit "Planning" = []
            | sec :: _ => exists own, sec_rules sec = [early] ++ own
            end.
Proof.
  intros lines early st; split; [vm_compute; reflexivity|].
  destruct (pending_rules_kept lines st (lit "### **Planning**")
              eq_refl eq_refl eq_refl eq_refl)
    as (st1 & H1 & H2 & H3 & _ & H4).
  exists st1; repeat split; assumption.
Defined.

End ParseRulesPending.

(** ** The priority of a section *)

Section Priorities.


Lemma priority_of_values (n : N) : In (Some (Complete.priority_of n)) tiers.
Proof.
  unfold Complete.priority_of, tiers.
  destruct (n <=? 46)%N; [simpl; auto|].
  destruct (n <=? 100)%N; simpl; auto.
Qed.

(** In [parse_rules_complete.py] every section gets one of the tiers. *)
Lemma complete_group_step_priorities (g g' : Complete.grouping)
    (rule : ProcurementRule) :
  Complete.group_step g rule = Done g' ->
  Forall (fun s => In (sec_priority s) tiers) (Complete.sections g) ->
  Forall (fun s => In (sec_priority s) tiers) (Complete.sections g').
Proof.
  unfold Complete.group_step.
  destruct (existsb _ _); [|intros [= <-]; auto].
  destruct (Complete.title_of _); cbn [bind]; try discriminate.
  intros [= <-] H; cbn [Complete.sections].
  apply Forall_app; split; [exact H|].
  constructor; [apply priority_of_values|constructor].
Qed.

Lemma complete_priorities (rules : list ProcurementRule) (doc : Document) :
  Complete.group rules = Done doc ->
  Forall (fun s => In (sec_priority s) tiers) doc.
Proof.
  unfold Complete.group.
  assert (Hloop : forall rs g g',
             Complete.group_loop rs g = Done g' ->
             Forall (fun s => In (sec_priority s) tiers) (Complete.sections g) ->
             Forall (fun s => In (sec_priority s) tiers) (Complete.sections g')).
  { induction rs as [|r rs IH]; intros g g'; simpl; [now intros [= <-]|].
    destruct (Complete.group_step g r) as [g1| |] eqn:Hs; cbn [bind];
      try discriminate.
    intros Hl Hg; apply (IH g1 g' Hl).
    now apply (complete_group_step_priorities g g1 r). }
  destruct (Complete.group_loop rules Complete.grouping_init) as [g| |] eqn:Hg;
    cbn [bind]; try discriminate.
  apply Hloop in Hg; [|constructor].
  unfold Complete.group_finish.
  destruct (Py.nonempty _); [|now intros [= <-]].
  destruct (Complete.title_of _); cbn [bind]; try discriminate.
  intros [= <-]; apply Forall_app; split; [exact Hg|].
  constructor; [|constructor]. simpl; auto.
Qed.

End Priorities.

(** C9 fails in [parse_rules.py].  [current_priority] starts as [None] and
    only a tier header sets it, so a section that is closed before any tier
    header was scanned is appended with the priority [None], which is none of
    the four tiers, and the emitter writes it as the text [None] into a field
    that the interface it writes declares to be one of the four. *)
Theorem priority_unset_before_tier :
  let content := lit "### **Planning**
**1. Plan early**
- Every project has a plan
- **Source**: PR2025, p.3" in
  exists sec,
    ParseRules.extract content = Done [sec]
    /\ sec_title sec = lit "Planning"
    /\ sec_priority sec = None
    /\ ~ In (sec_priority sec) tiers
    /\ Emit.format_opt (sec_priority sec) = lit "None".
Proof.
  cbv zeta; eexists; split; [vm_compute; reflexivity|].
  repeat split.
  simpl; intros [H|[H|[H|[H|[]]]]]; discriminate.
Qed.

(** ** Reading the rule numbers back from the emitted module *)






Lemma lstrip_head (s : str) (c : ascii) (r : str) :
  Py.lstrip s = c :: r -> Py.isspace c = false.
Proof.
  induction s as [|x s IH]; simpl; [discriminate|].
  destruct (Py.isspace x) eqn:Hx; [exact IH|].
  now intros [= <- _].
Qed.

Lemma lstrip_keeps_last (c : ascii) :
  Py.isspace c = false ->
  forall s, exists y, Py.lstrip (s ++ [c]) = y ++ [c].
Proof.
  intros Hc; induction s as [|x s [y IH]]; simpl.
  - rewrite Hc; now exists [].
  - destruct (Py.isspace x); [now exists y|].
    now exists (x :: s).
Qed.

Lemma rstrip_keeps_head (c : ascii) (r : str) :
  Py.isspace c = false -> exists r', Py.rstrip (c :: r) = c :: r'.
Proof.
  intros Hc; unfold Py.rstrip; simpl.
  destruct (lstrip_keeps_last c Hc (rev r)) as [y ->].
  rewrite rev_app_distr; simpl; eauto.
Qed.





























(** ** The documents the scanners build hold no newline *)












Section ParseRulesOneLine.
Import ParseRules.






End ParseRulesOneLine.

Section CompleteOneLine.
Import Complete.









End CompleteOneLine.


Example round_trip_example :
  exists doc,
    Complete.extract (lit "**3. Three**
- a
**11. Eleven**
**190. Last**
- b") = Done doc
    /\ rule_numbers doc = [3; 11; 190]%N
    /\ read_numbers (Emit.ts_output doc) = [3; 11; 190]%N.
Proof. eexists; split; [vm_compute; reflexivity|]; split; vm_compute; reflexivity. Qed.

(** ** Reading an emitted string literal back *)

Lemma replace_single (a : ascii) (new : str) (s : str) :
  Py.replace s [a] new
  = flat_map (fun c => if Ascii.eqb a c then new else [c]) s.
Proof.
  unfold Py.replace; induction s as [|c s IH]; [reflexivity|].
  cbn [Py.replace_from Py.startswith flat_map length Nat.sub].
  rewrite andb_true_r; destruct (Ascii.eqb a c); now rewrite IH.
Qed.

Lemma escape_flat_map (s : str) :
  Emit.escape s
  = flat_map (fun c => if Ascii.eqb dq c then [bs; dq]
                       else if Ascii.eqb sq c then [bs; sq] else [c]) s.
Proof.
  unfold Emit.escape; rewrite !replace_single.
  induction s as [|c s IH]; [reflexivity|].
  cbn [flat_map]; rewrite flat_map_app, IH; f_equal.
  destruct (Ascii.eqb dq c) eqn:E; [reflexivity|].
  cbn [flat_map]; rewrite app_nil_r; reflexivity.
Qed.

(** Where no field holds a backslash or an end of line, the escaping does
    its work: the literal reads back as the field. *)
Lemma read_field_literal (s rest : str) :
  forallb plain s = true ->
  read_literal (field_literal s ++ rest) = Some (s, rest).
Proof.
  unfold field_literal, read_literal; cbn [app]; rewrite Ascii.eqb_refl.
  rewrite escape_flat_map, <- app_assoc; cbn [app].
  induction s as [|c s IH]; intros H.
  - cbn [flat_map app read_body]; now rewrite Ascii.eqb_refl.
  - cbn [forallb] in H; apply andb_prop in H as [Hc Hs].
    specialize (IH Hs); cbn [flat_map]; rewrite <- app_assoc.
    unfold plain in Hc.
    apply andb_prop in Hc as [Hc Hcr]; apply andb_prop in Hc as [Hbs Hnl].
    apply negb_true_iff in Hbs, Hnl, Hcr.
    destruct (Ascii.eqb dq c) eqn:Edq.
    + apply Ascii.eqb_eq in Edq; subst c.
      cbn [app read_body]; rewrite IH; reflexivity.
    + destruct (Ascii.eqb sq c) eqn:Esq.
      * apply Ascii.eqb_eq in Esq; subst c.
        cbn [app read_body]; rewrite IH; reflexivity.
      * cbn [app read_body].
        rewrite Ascii.eqb_sym in Edq; rewrite Edq, Hnl, Hcr, Hbs, IH.
        reflexivity.
Qed.

(** C7 fails in both scripts.  A quote gets its backslash, but a backslash
    of the field itself is written as it stands.  A title that ends with a
    backslash turns the closing quote of its literal into an escaped quote,
    and the literal does not end on its line; a quote that follows a
    backslash in the field ends the literal early.  The title of a section is
    written without any escaping, so a quote in it ends the literal too. *)
Theorem backslash_breaks_literal :
  let content := lit "**7. Store bids under C:\**" in
  let ttl := lit "Store bids under C:\" in
  let said := lit "The \" ++ [dq] ++ lit "lowest\" ++ [dq] ++ lit " bid" in
  let name := lit "Plans " ++ [dq] ++ lit "A" ++ [dq] in
  (exists r sec,
      Complete.extract content = Done [sec]
      /\ sec_rules sec = [r]
      /\ title r = ttl
      /\ (exists sec',
             ParseRules.extract (lit "### **S**
" ++ content) = Done [sec']
             /\ sec_rules sec' = [r])
      /\ field_literal (title r) = [dq] ++ ttl ++ [dq]
      /\ read_literal (field_literal (title r) ++ lit "," ++ [nl]) = None)
  /\ Re.rule_header (lit "**8. " ++ said ++ lit "**") = Some (lit "8", said)
  /\ read_literal (field_literal said)
     = Some (lit "The \", lit "lowest\\" ++ [dq] ++ lit " bid" ++ [dq])
  /\ (exists sec,
         ParseRules.extract
           (lit "### **" ++ name ++ lit "**
**1. T**") = Done [sec]
         /\ sec_title sec = name
         /\ Py.startswith (Emit.section_text sec)
              (lit "    {
        title: " ++ [dq] ++ name ++ [dq] ++ lit ",") = true
         /\ read_literal ([dq] ++ name ++ [dq] ++ lit ",")
            = Some (lit "Plans ", lit "A" ++ [dq; dq] ++ lit ",")).
Proof.
  cbv zeta; repeat split.
  - eexists; eexists; split; [vm_compute; reflexivity|].
    repeat split.
    eexists; split; vm_compute; reflexivity.
  - eexists; split; [vm_compute; reflexivity|].
    repeat split.
Qed.

(** * Further properties of the code *)

(** ** The grouping pass of [parse_rules_complete.py] *)

Section Grouping.
Import Complete.

(** One turn of the grouping loop, spelled out by the two cases. *)
Lemma group_step_spec (g : grouping) (rule : ProcurementRule) :
  let cur := match current_section g with Some t => t | None => core_title end in
  group_step g rule
  = Done (if is_boundary (number rule)
          then {| sections := sections g ++
                    [ {| sec_title := cur;
                         sec_priority := Some (priority_of (number rule));
                         sec_rules := section_rules g ++ [rule] |} ];
                  current_section :=
                    Some match next_title (number rule) with
                         | Some t' => t'
                         | None => cur
                         end;
                  section_rules := [] |}
          else {| sections := sections g; current_section := Some cur;
                  section_rules := section_rules g ++ [rule] |}).
Proof.
  unfold group_step, is_boundary.
  destruct (existsb _ _); destruct (current_section g) as [t|];
    cbn [title_of bind]; try reflexivity;
    destruct (next_title (number rule)); reflexivity.
Qed.

Lemma group_step_grouped (g g' : grouping) (rule : ProcurementRule) :
  group_step g rule = Done g' -> grouped g' = grouped g ++ [rule].
Proof.
  rewrite group_step_spec; intros [= <-]; unfold grouped.
  destruct (is_boundary (number rule)); cbn [sections section_rules].
  - rewrite flat_map_app; cbn [flat_map sec_rules].
    now rewrite !app_nil_r, <- app_assoc.
  - now rewrite app_assoc.
Qed.

Lemma group_loop_grouped (rules : list ProcurementRule) :
  forall g g', group_loop rules g = Done g' -> grouped g' = grouped g ++ rules.
Proof.
  induction rules as [|r rules IH]; intros g g'; simpl.
  - intros [= <-]; now rewrite app_nil_r.
  - destruct (group_step g r) as [g1| |] eqn:Hs; cbn [bind]; try discriminate.
    intros Hl; rewrite (IH g1 g' Hl), (group_step_grouped g g1 r Hs).
    now rewrite <- app_assoc.
Qed.

Lemma group_finish_spec (g : grouping) (doc : Document) :
  group_finish g = Done doc ->
  doc = sections g
        ++ match section_rules g with
           | [] => []
           | _ :: _ =>
               [ {| sec_title :=
                      match current_section g with
                      | Some t => t
                      | None => []
                      end;
                    sec_priority := Some (lit "important");
                    sec_rules := section_rules g |} ]
           end.
Proof.
  unfold group_finish; destruct (section_rules g) as [|r rs] eqn:E;
    cbn [Py.nonempty].
  - intros [= <-]; now rewrite app_nil_r.
  - destruct (current_section g); cbn [title_of bind]; [|discriminate].
    now intros [= <-].
Qed.

Lemma group_step_cut (g g' : grouping) (rule : ProcurementRule) :
  group_step g rule = Done g' -> cut_ok g -> cut_ok g'.
Proof.
  rewrite group_step_spec; intros [= <-] [Hs Hr]; unfold cut_ok.
  destruct (is_boundary (number rule)) eqn:Hb; cbn [sections section_rules].
  - split; [|reflexivity].
    apply Forall_app; split; [exact Hs|]; constructor; [|constructor].
    exists (section_rules g), rule; cbn [sec_rules sec_priority]; auto.
  - split; [exact Hs|].
    rewrite forallb_app, Hr; unfold inner_rule; cbn [forallb]; now rewrite Hb.
Qed.

Lemma group_loop_cut (rules : list ProcurementRule) :
  forall g g', group_loop rules g = Done g' -> cut_ok g -> cut_ok g'.
Proof.
  induction rules as [|r rules IH]; intros g g'; simpl; [now intros [= <-]|].
  destruct (group_step g r) as [g1| |] eqn:Hs; cbn [bind]; try discriminate.
  intros Hl Hg; apply (IH g1 g' Hl); now apply (group_step_cut g g1 r).
Qed.

Lemma chained_app (s : ProcurementSection) :
  forall a t,
    chained t (a ++ [s]) <-> chained t a /\ sec_title s = end_title t a.
Proof.
  induction a as [|x a IH]; intros t; simpl.
  - unfold end_title; simpl; tauto.
  - rewrite IH; unfold end_title; simpl; tauto.
Qed.

Lemma end_title_app (s : ProcurementSection) (a : list ProcurementSection)
    (t : str) :
  end_title t (a ++ [s]) = next_of s.
Proof. unfold end_title; now rewrite fold_left_app. Qed.

Lemma current_title (g : grouping) :
  titles_ok g ->
  match current_section g with Some t => t | None => core_title end
  = end_title core_title (sections g).
Proof.
  intros [_ H]; destruct (current_section g); [exact H|now rewrite H].
Qed.

Lemma group_step_titles (g g' : grouping) (rule : ProcurementRule) :
  group_step g rule = Done g' -> titles_ok g -> titles_ok g'.
Proof.
  rewrite group_step_spec; intros [= <-] Hg.
  pose proof (current_title g Hg) as Hcur; destruct Hg as [Hch _].
  unfold titles_ok.
  destruct (is_boundary (number rule)); cbn [sections current_section].
  - split.
    + apply chained_app; split; [exact Hch|exact Hcur].
    + rewrite end_title_app; unfold next_of; cbn [sec_rules sec_title].
      now rewrite rev_app_distr.
  - split; [exact Hch|exact Hcur].
Qed.

Lemma group_loop_titles (rules : list ProcurementRule) :
  forall g g', group_loop rules g = Done g' -> titles_ok g -> titles_ok g'.
Proof.
  induction rules as [|r rules IH]; intros g g'; simpl; [now intros [= <-]|].
  destruct (group_step g r) as [g1| |] eqn:Hs; cbn [bind]; try discriminate.
  intros Hl Hg; apply (IH g1 g' Hl); now apply (group_step_titles g g1 r).
Qed.

Lemma boundary_has_title (n : N) :
  is_boundary n = true -> next_title n <> None.
Proof.
  unfold is_boundary; intros H; apply existsb_exists in H as (m & Hin & Hm).
  apply N.eqb_eq in Hm; subst m.
  unfold boundaries in Hin; simpl in Hin.
  repeat (destruct Hin as [<-|Hin]; [discriminate|]).
  contradiction.
Qed.

Lemma group_flat (rules : list ProcurementRule) (doc : Document) :
  group rules = Done doc -> flat_map sec_rules doc = rules.
Proof.
  intros Hdoc.
  revert Hdoc; unfold group.
  destruct (group_loop rules grouping_init) as [g| |] eqn:Hg; cbn [bind];
    try discriminate.
  apply group_loop_grouped in Hg; unfold grouped in Hg; simpl in Hg.
  intros Hf; apply group_finish_spec in Hf; subst doc.
  rewrite flat_map_app, <- Hg; f_equal.
  destruct (section_rules g); [reflexivity|].
  cbn [flat_map sec_rules]; apply app_nil_r.
Qed.

(** X1.  The grouping pass loses no rule, repeats none and keeps their order:
    the rules of the sections, one section after the other, are the rules
    that went in. *)
Theorem grouping_keeps_rules (rules : list ProcurementRule) :
  exists doc, group rules = Done doc /\ flat_map sec_rules doc = rules.
Proof.
  destruct (group_done rules) as [doc Hdoc]; exists doc; split; [exact Hdoc|].
  now apply group_flat.
Qed.

(** X2.  A section is closed exactly at the boundary numbers.  Every section the
    loop appends ends with a rule whose number is a boundary, holds no other
    such rule and gets the priority of that number; the rules left over after
    the loop make one last section, which holds no boundary number and gets
    the priority [important] whatever its numbers are. *)
Theorem grouping_cuts_at_boundaries (rules : list ProcurementRule) :
  exists closed rest,
    group rules = Done (closed ++ rest)
    /\ Forall closed_at_boundary closed
    /\ (rest = [] \/ exists s, rest = [s] /\ left_over s).
Proof.
  destruct (group_done rules) as [doc Hdoc].
  revert Hdoc; unfold group.
  destruct (group_loop rules grouping_init) as [g| |] eqn:Hg; cbn [bind];
    try discriminate.
  apply group_loop_cut in Hg as [Hs Hr]; [|split; [constructor|reflexivity]].
  intros Hf; pose proof (group_finish_spec g doc Hf) as Hd.
  exists (sections g); eexists; split; [rewrite Hf, Hd; reflexivity|].
  split; [exact Hs|].
  destruct (section_rules g) as [|r rs] eqn:E; [now left|right].
  eexists; split; [reflexivity|].
  repeat split; cbn [sec_rules sec_priority]; [discriminate|exact Hr].
Qed.

(** X3.  The titles come from the chain of the script: the first section is
    called [Core Principles & Legal Framework], and every further section
    carries the title that the number of the last rule of the section before
    it selects; every boundary number selects one. *)
Theorem grouping_titles_chain (rules : list ProcurementRule) :
  (exists doc, group rules = Done doc /\ chained core_title doc)
  /\ (forall n, is_boundary n = true -> next_title n <> None).
Proof.
  split; [|exact boundary_has_title].
  destruct (group_done rules) as [doc Hdoc]; exists doc; split; [exact Hdoc|].
  revert Hdoc; unfold group.
  destruct (group_loop rules grouping_init) as [g| |] eqn:Hg; cbn [bind];
    try discriminate.
  apply group_loop_titles in Hg; [|split; [exact I|reflexivity]].
  intros Hf; pose proof (group_finish_spec g doc Hf) as Hd; subst doc.
  destruct Hg as [Hch Hcur].
  destruct (section_rules g) as [|r rs] eqn:E; [now rewrite app_nil_r|].
  apply chained_app; split; [exact Hch|]; cbn [sec_title].
  destruct (current_section g) as [t|] eqn:Ec; [exact Hcur|].
  revert Hf; unfold group_finish; rewrite E, Ec; discriminate.
Qed.

End Grouping.

Example grouping_example :
  Complete.group
    [ {| number := 2; title := lit "a"; description := []; source := [] |};
      {| number := 3; title := lit "b"; description := []; source := [] |};
      {| number := 40; title := lit "c"; description := []; source := [] |} ]
  = Done
      [ {| sec_title := core_title; sec_priority := Some (lit "critical");
           sec_rules :=
             [ {| number := 2; title := lit "a"; description := [];
                  source := [] |};
               {| number := 3; title := lit "b"; description := [];
                  source := [] |} ] |};
        {| sec_title := lit "Strategic Planning Documents";
           sec_priority := Some (lit "important");
           sec_rules :=
             [ {| number := 40; title := lit "c"; description := [];
                  source := [] |} ] |} ].
Proof. vm_compute. reflexivity. Qed.

(** ** The scan of [parse_rules.py]: what it holds and appends *)

Lemma strip_idempotent (s : str) : Py.strip (Py.strip s) = Py.strip s.
Proof.
  unfold Py.strip.
  destruct (Py.lstrip s) as [|c r] eqn:E; [reflexivity|].
  pose proof (lstrip_head _ _ _ E) as Hc.
  destruct (rstrip_keeps_head c r Hc) as [r' Hr]; rewrite Hr.
  cbn [Py.lstrip]; rewrite Hc, <- Hr.
  unfold Py.rstrip; rewrite rev_involutive.
  destruct (Py.lstrip (rev (c :: r))) as [|x y] eqn:Ex; [reflexivity|].
  cbn [Py.lstrip]; now rewrite (lstrip_head _ _ _ Ex).
Qed.

Lemma source_of_stripped (marker : str) (stop : option str) :
  Py.strip (source_of marker stop) = source_of marker stop.
Proof.
  unfold source_of; destruct stop as [t|]; [|reflexivity].
  destruct (Py.contains t marker); [apply strip_idempotent|reflexivity].
Qed.

Lemma header_title_nonempty (line g1 g2 : str) :
  Re.rule_header line = Some (g1, g2) -> g2 <> [].
Proof.
  intros H; apply rule_header_sound in H
    as (ws & tail & _ & _ & _ & _ & _ & Hne & _); exact Hne.
Qed.

Section ParseRulesHeld.
Import ParseRules.

Lemma held_flush (st : state) : held (flush st) = held st.
Proof.
  rewrite flush_spec; unfold held; destruct (closes st); [|reflexivity].
  cbn [sections rules]; rewrite flat_map_app; cbn [flat_map open_section
    sec_rules].
  now rewrite !app_nil_r.
Qed.

(** A turn of the main loop adds at most one rule to the rules held, and
    only on a line the full pattern matches. *)
Lemma body_held (lines : list str) (l : str) (st st' : state) :
  nth_error lines (i st) = Some l ->
  body lines l st = Done st' ->
  match Re.rule_header (Py.strip l) with
  | Some h =>
      exists r,
        held st' = held st ++ [r] /\ from_header h r
        /\ Py.strip (source r) = source r
  | None => held st' = held st
  end.
Proof.
  intros Hl Hb.
  destruct (Re.rule_header (Py.strip l)) as [[g1 g2]|] eqn:Hh.
  - destruct (read_rule_spec lines st l g1 g2 Hl Hh) as (n & Hn & Hbody).
    rewrite Hbody in Hb; injection Hb as <-.
    eexists; unfold held; cbn [sections rules]; rewrite app_assoc.
    split; [reflexivity|]; split; [split; [exact Hn|reflexivity]|].
    cbn [source]; apply source_of_stripped.
  - revert Hb; unfold body; rewrite Hh.
    destruct (tier (Py.strip l)); [now intros [= <-]|].
    destruct (is_section_header (Py.strip l)).
    { intros [= <-]; rewrite <- (held_flush st); reflexivity. }
    destruct (Re.rule_start (Py.strip l)); now intros [= <-].
Qed.

Lemma loop_held (lines : list str) :
  forall fuel st st',
    loop fuel lines st = Done st' ->
    exists new, held st' = held st ++ new /\ Forall tidy new.
Proof.
  induction fuel as [|fuel IH]; intros st st'; simpl;
    destruct (nth_error lines (i st)) as [l|] eqn:Hl; try discriminate;
    try (intros [= <-]; exists []; split; [now rewrite app_nil_r|constructor]).
  destruct (body lines l st) as [st1| |] eqn:Hb; cbn [bind]; try discriminate.
  intros Hloop; destruct (IH st1 st' Hloop) as (new & Hnew & Htidy).
  pose proof (body_held lines l st st1 Hl Hb) as H1.
  destruct (Re.rule_header (Py.strip l)) as [[g1 g2]|] eqn:Hh.
  - destruct H1 as (r & Hr & [_ Ht] & Hs).
    exists (r :: new); split.
    + rewrite Hnew, Hr, <- app_assoc; reflexivity.
    + constructor; [|exact Htidy]; split; [|exact Hs].
      rewrite Ht; exact (header_title_nonempty _ _ _ Hh).
  - exists new; split; [now rewrite Hnew, H1|exact Htidy].
Qed.

Lemma finish_held (st : state) :
  exists dropped,
    held st = flat_map sec_rules (finish st) ++ dropped
    /\ (dropped = [] \/ (closes st = false /\ dropped = rules st)).
Proof.
  unfold finish; rewrite flush_spec; unfold held.
  destruct (closes st) eqn:E; cbn [sections].
  - exists []; split; [|now left].
    rewrite flat_map_app; cbn [flat_map open_section sec_rules].
    now rewrite !app_nil_r.
  - exists (rules st); split; [reflexivity|now right].
Qed.




(** X5.  The scan keeps the rules in the order it matched them.  Through any
    number of turns the rules held, those of the sections appended and then
    the pending ones, only grow at their end; the document has them all, in
    that order, but for the pending rules when the input ends with no titled
    section open. *)
Theorem scan_keeps_order (lines : list str) (fuel : nat) (st st' : state) :
  loop fuel lines st = Done st' ->
  exists new dropped,
    held st' = held st ++ new
    /\ held st' = flat_map sec_rules (finish st') ++ dropped
    /\ (dropped = [] \/ (closes st' = false /\ dropped = rules st')).
Proof.
  intros Hloop.
  destruct (loop_held _ _ _ _ Hloop) as (new & Hnew & _).
  destruct (finish_held st') as (dropped & Hd & Hcase).
  exists new, dropped; auto.
Qed.

Lemma scan_keeps_order_witness :
  let early :=
    {| number := 1; title := lit "Early"; description := lit "text";
       source := lit "s" |} in
  let st :=
    {| sections := []; current_section := Some (lit "Planning");
       current_priority := None; rules := [early]; i := 0 |} in
  exists st' new dropped,
    loop 2 [lit "### **Award**"; lit "**2. Late**"] st = Done st'
    /\ held st' = [early] ++ new
    /\ held st' = flat_map sec_rules (finish st') ++ dropped
    /\ (dropped = [] \/ (closes st' = false /\ dropped = rules st')).
Proof.
  intros early st.
  eexists.
  destruct (scan_keeps_order [lit "### **Award**"; lit "**2. Late**"] 2 st _
              eq_refl) as (new & dropped & H1 & H2 & H3).
  exists new, dropped; split; [reflexivity|]; auto.
Defined.

End ParseRulesHeld.

(** ** The priority of the sections of [parse_rules.py] *)

Section ParseRulesTiers.
Import ParseRules.






(** X7.  A section gets the tier in force when it is closed, not the one in force
    when it was opened: a tier header scanned behind the rules of the open
    section and before the next section header gives its tier to that
    section. *)
Theorem priority_at_close (lines : list str) (st : state) (l1 l2 h p : str) :
  closes st = true ->
  nth_error lines (i st) = Some l1 ->
  In (h, p) tier_headers ->
  Py.startswith (Py.strip l1) h = true ->
  nth_error lines (S (i st)) = Some l2 ->
  is_section_header (Py.strip l2) = true ->
  exists st1 st2,
    step lines st = Some (Done st1)
    /\ step lines st1 = Some (Done st2)
    /\ sections st2
       = sections st ++
         [ {| sec_title := sec_title (open_section st);
              sec_priority := Some p;
              sec_rules := rules st |} ]
    /\ rules st2 = []
    /\ current_priority st2 = Some p.
Proof.
  intros Hc Hl1 Hin Hs Hl2 H2.
  unfold step at 1; rewrite Hl1; unfold body.
  rewrite (tier_of_header _ h p Hin Hs).
  eexists; eexists; split; [reflexivity|].
  rewrite (section_header_step lines (advance (set_priority p st)) l2 Hl2 H2).
  split; [reflexivity|].
  rewrite flush_spec.
  change (closes (advance (set_priority p st))) with (closes st); rewrite Hc.
  repeat split.
Qed.

Lemma priority_at_close_witness :
  let st :=
    {| sections := []; current_section := Some (lit "Thresholds");
       current_priority := Some (lit "critical"); rules := [example_rule];
       i := 0 |} in
  exists st1 st2,
    step [lit "## **HIGH PRIORITY REQUIREMENTS**"; lit "### **Award**"] st
    = Some (Done st1)
    /\ step [lit "## **HIGH PRIORITY REQUIREMENTS**"; lit "### **Award**"] st1
       = Some (Done st2)
    /\ sections st2
       = [ {| sec_title := lit "Thresholds"; sec_priority := Some (lit "high");
              sec_rules := [example_rule] |} ].
Proof.
  intros st.
  destruct (priority_at_close
              [lit "## **HIGH PRIORITY REQUIREMENTS**"; lit "### **Award**"]
              st (lit "## **HIGH PRIORITY REQUIREMENTS**")
              (lit "### **Award**")
              (lit "## **HIGH PRIORITY REQUIREMENTS**") (lit "high")
              eq_refl eq_refl (or_intror (or_introl eq_refl)) eq_refl eq_refl
              eq_refl)
    as (st1 & st2 & H1 & H2 & H3 & _).
  exists st1, st2; auto.
Defined.

End ParseRulesTiers.

(** ** Where the two scanners part *)




(** ** [parse_rules_complete.py]: one rule for every header line *)




Section CompleteHeaders.
Import Complete.







End CompleteHeaders.


(** ** The fields of the rules *)

Section Tidy.




End Tidy.

(** ** The escaping of the emitters *)

Lemma quotes_guarded_escape (s : str) :
  forall after, quotes_guarded after (Emit.escape s) = true.
Proof.
  rewrite escape_flat_map; induction s as [|c s IH]; intros after;
    [reflexivity|].
  cbn [flat_map].
  destruct (Ascii.eqb dq c) eqn:Edq.
  - cbn [app quotes_guarded]; now rewrite IH.
  - destruct (Ascii.eqb sq c) eqn:Esq.
    + cbn [app quotes_guarded]; now rewrite IH.
    + cbn [app quotes_guarded]; rewrite IH.
      unfold is_quote; rewrite (Ascii.eqb_sym c dq), (Ascii.eqb_sym c sq).
      now rewrite Edq, Esq.
Qed.

(** X11.  In an escaped field every quote, double or single, has a backslash
    right before it, and a field without quotes is written unchanged. *)
Theorem escape_guards_quotes (s : str) :
  quotes_guarded false (Emit.escape s) = true
  /\ (forallb (fun c => negb (is_quote c)) s = true -> Emit.escape s = s).
Proof.
  split; [apply quotes_guarded_escape|].
  rewrite escape_flat_map; induction s as [|c s IH]; [reflexivity|].
  cbn [forallb flat_map]; intros H; apply andb_prop in H as [Hc Hs].
  unfold is_quote in Hc; apply negb_true_iff, orb_false_elim in Hc as [H1 H2].
  rewrite (Ascii.eqb_sym dq c), (Ascii.eqb_sym sq c), H1, H2.
  cbn [app]; f_equal; auto.
Qed.

(** X12.  A field that holds no backslash and no end of line comes back from its
    emitted literal: reading the literal gives the field and leaves the text
    behind the closing quote. *)
Theorem plain_field_round_trip (s rest : str) :
  forallb plain s = true ->
  read_literal (field_literal s ++ rest) = Some (s, rest).
Proof. exact (read_field_literal s rest). Qed.

Lemma plain_field_round_trip_witness :
  let s := lit "The " ++ [dq] ++ lit "best" ++ [dq] ++ lit " bidder's offer" in
  read_literal (field_literal s ++ lit ",") = Some (s, lit ",").
Proof.
  intros s; apply (plain_field_round_trip s (lit ",")); reflexivity.
Defined.

(** ** The counts printed by [parse_rules_complete.py] *)

Lemma count_split (P Q : ProcurementRule -> bool) (rs : list ProcurementRule) :
  (forall r, P r && Q r = false) ->
  length (filter P rs) + length (filter Q rs)
  = length (filter (fun r => P r || Q r) rs).
Proof.
  intros Hdis; induction rs as [|r rs IH]; [reflexivity|]; cbn [filter].
  specialize (Hdis r).
  destruct (P r), (Q r); cbn [orb length] in *; try discriminate; lia.
Qed.

(** X13.  The three printed counts add up to the number of rules whose number lies
    between 1 and 190; a rule numbered 0 or above 190 is in none of the three
    lists, so the counts add up to the printed total exactly when every
    number lies in that range. *)
Theorem printed_counts (rules : list ProcurementRule) :
  length (Complete.critical_rules rules) + length (Complete.high_rules rules)
  + length (Complete.important_rules rules)
  = length (filter (fun r => (1 <=? number r)%N && (number r <=? 190)%N) rules)
  /\ (length (Complete.critical_rules rules)
      + length (Complete.high_rules rules)
      + length (Complete.important_rules rules) = length rules
      <-> Forall (fun r => (1 <= number r <= 190)%N) rules).
Proof.
  assert (Hsum :
    length (Complete.critical_rules rules) + length (Complete.high_rules rules)
    + length (Complete.important_rules rules)
    = length (filter (fun r => (1 <=? number r)%N && (number r <=? 190)%N)
                rules)).
  { unfold Complete.critical_rules, Complete.high_rules,
      Complete.important_rules.
    rewrite count_split by (intros r; destruct (N.leb_spec 1 (number r));
      destruct (N.leb_spec (number r) 46); destruct (N.leb_spec 47 (number r));
      destruct (N.leb_spec (number r) 100); cbn; auto; lia).
    rewrite count_split by (intros r; destruct (N.leb_spec 1 (number r));
      destruct (N.leb_spec (number r) 46); destruct (N.leb_spec 47 (number r));
      destruct (N.leb_spec (number r) 100);
      destruct (N.leb_spec 101 (number r));
      destruct (N.leb_spec (number r) 190); cbn; auto; lia).
    f_equal; apply filter_ext; intros r.
    destruct (N.leb_spec 1 (number r)); destruct (N.leb_spec (number r) 46);
      destruct (N.leb_spec 47 (number r));
      destruct (N.leb_spec (number r) 100);
      destruct (N.leb_spec 101 (number r));
      destruct (N.leb_spec (number r) 190); cbn; auto; lia. }
  split; [exact Hsum|]; rewrite Hsum; clear Hsum.
  induction rules as [|r rs IH]; [split; [constructor|reflexivity]|].
  cbn [filter length].
  pose proof (filter_length_le
                (fun r => (1 <=? number r)%N && (number r <=? 190)%N) rs).
  destruct (N.leb_spec 1 (number r)); destruct (N.leb_spec (number r) 190);
    cbn [andb length]; split; intros Hx;
    try (inversion Hx; subst; lia); try lia.
  - constructor; [lia|]; apply IH; lia.
  - inversion Hx; subst; f_equal; now apply IH.
Qed.

(** ** The title of a section header *)

Lemma replace_stars_head :
  forall s skip,
    Py.startswith (Py.replace_from skip s (lit "**") []) (lit "**") = false
    /\ Py.contains (Py.replace_from skip s (lit "**") []) (lit "**") = false.
Proof.
  induction s as [|c s IH]; intros skip; [split; reflexivity|].
  cbn [Py.replace_from]; destruct skip as [|k]; [|apply IH].
  destruct (Py.startswith (c :: s) (lit "**")) eqn:E; [apply IH|].
  destruct (IH 0) as [IHs IHc].
  assert (Hs : Py.startswith (c :: Py.replace_from 0 s (lit "**") [])
                 (lit "**") = false).
  { change (lit "**") with ["*"%char; "*"%char] in *.
    cbn [Py.startswith] in *.
    destruct (Ascii.eqb "*" c) eqn:Ec; [|reflexivity]; cbn [andb] in *.
    destruct s as [|c2 s']; [reflexivity|].
    cbn [Py.replace_from].
    cbn [Py.startswith] in E; rewrite andb_true_r in E.
    replace (Py.startswith (c2 :: s') ["*"%char; "*"%char]) with false
      by (cbn [Py.startswith]; now rewrite E).
    cbn [Py.startswith]; now rewrite E. }
  split; [exact Hs|].
  cbn [Py.contains]; now rewrite Hs, IHc.
Qed.

(** X14.  The title [parse_rules.py] takes from a section header never holds two
    asterisks in a row, whatever the header line is. *)
Theorem section_name_no_stars (line : str) :
  Py.contains (ParseRules.section_name line) (lit "**") = false.
Proof. unfold ParseRules.section_name, Py.replace; apply replace_stars_head. Qed.

Example section_name_ex :
  ParseRules.section_name (lit "### **Bid **** Opening***") = lit "Bid  Opening*".
Proof. reflexivity. Qed.
